(** * wsgize: WSGI glue for Python callables (versions 0.1 and 0.3)

    A shallow embedding of [branches/0.1/trunk/wsgize.py] and
    [branches/0.3/trunk/wsgize.py].

    Both modules are Python 2 programs ([from BaseHTTPServer import ...],
    [basestring], [except ImportError, error:]), so the embedding follows
    the Python 2 object model.  Three facts of that model decide several
    branches of the source and are spelled out where they are used:
    - the built-in text types [str] and [unicode] have no [__iter__]
      attribute (they iterate through [__getitem__]); see [hasattr_iter];
    - [dict.get(k)] answers [None] for an absent key, and unpacking [None]
      raises [TypeError], not [ValueError]; see [unpack_pair];
    - an old-style class can be called but has no [__call__] attribute;
      see [callable] and [hasattr_call]. *)

From Stdlib Require Import Ascii String ZArith.
From stdpp Require Import gmap strings list pretty.

Set Warnings "-register-all".
Local Open Scope string_scope.
Local Open Scope Z_scope.
Local Open Scope list_scope.

(** ** Python values *)

(** Callables and dictionaries held by reference are named by numbers. *)
Definition fid := nat.
Definition loc := nat.

(** The run-time values the library touches.  [PyStr] stands for both
    [str] and [unicode] (the instances of [basestring]); [PyDict] lists
    the items of a dictionary with string keys in iteration order;
    [PyFunc] is any object exposing [__call__] (function, bound method,
    new-style class, wrapper instance); [PyIter] is an iterator or
    generator object together with the items it yields; [PyObject] is an
    instance with neither [__iter__] nor [__call__]; [PyClassic] is an
    old-style class object (a [class C:] with no base, as the
    application classes of the gateway convention's own examples): it
    can be called, which makes an instance, yet it has no [__call__]
    attribute, so in Python 2 being callable and exposing [__call__]
    are two different things. *)
Inductive value : Type :=
| PyNone
| PyBool (b : bool)
| PyInt (n : Z)
| PyStr (s : string)
| PyTuple (xs : list value)
| PyList (xs : list value)
| PyDict (kvs : list (string * value))
| PyFunc (f : fid)
| PyIter (xs : list value)
| PyObject (o : nat)
| PyClassic (c : fid).

(** [type(v).__name__], used in the interpreter's error messages. *)
Definition type_name (v : value) : string :=
  match v with
  | PyNone => "NoneType"
  | PyBool _ => "bool"
  | PyInt _ => "int"
  | PyStr _ => "str"
  | PyTuple _ => "tuple"
  | PyList _ => "list"
  | PyDict _ => "dict"
  | PyFunc _ => "function"
  | PyIter _ => "generator"
  | PyObject _ => "object"
  | PyClassic _ => "classobj"
  end.

(** Truth value of an object, as tested by [if args and kw:]. *)
Definition truthy (v : value) : bool :=
  match v with
  | PyNone => false
  | PyBool b => b
  | PyInt n => negb (n =? 0)
  | PyStr s => negb (String.eqb s "")
  | PyTuple xs | PyList xs => negb (bool_decide (xs = []))
  | PyDict kvs => negb (bool_decide (kvs = []))
  | PyFunc _ | PyIter _ | PyObject _ | PyClassic _ => true
  end.

(** [hasattr(v, '__iter__')] in Python 2: containers and iterators have
    the attribute; [str] and [unicode] do not (they are iterated through
    the sequence protocol, [__getitem__], which is why this test is the
    customary Python 2 way of telling strings from other iterables). *)
Definition hasattr_iter (v : value) : bool :=
  match v with
  | PyTuple _ | PyList _ | PyDict _ | PyIter _ => true
  | PyNone | PyBool _ | PyInt _ | PyStr _ | PyFunc _ | PyObject _
  | PyClassic _ => false
  end.

(** [isinstance(v, basestring)]. *)
Definition is_basestring (v : value) : bool :=
  match v with
  | PyStr _ => true
  | _ => false
  end.

(** [hasattr(v, '__call__')]: false for an old-style class. *)
Definition hasattr_call (v : value) : bool :=
  match v with
  | PyFunc _ => true
  | _ => false
  end.

(** Whether [v(...)] invokes something, [callable(v)]: true for an
    old-style class too. *)
Definition callable (v : value) : bool :=
  match v with
  | PyFunc _ | PyClassic _ => true
  | _ => false
  end.

(** The callable that [v(...)] invokes, when there is one. *)
Definition callee (v : value) : option fid :=
  match v with
  | PyFunc n | PyClassic n => Some n
  | _ => None
  end.

(** Whether [v] can be a dictionary key. *)
Fixpoint hashable (v : value) : bool :=
  match v with
  | PyList _ | PyDict _ => false
  | PyTuple xs => forallb hashable xs
  | _ => true
  end.

(** ** Exceptions and outcomes *)

Inductive exn_class : Type :=
| KeyError
| TypeError
| ValueError
| ImportError
| AttributeError
| UnboundLocalError
| IndexError
| OtherError (name : string).

(** An exception instance: its class and [str(error)]. *)
Record exn : Type := Exn { exn_class_of : exn_class; exn_msg : string }.

(** A Python call either returns or raises. *)
Inductive outcome (A : Type) : Type :=
| Return (a : A)
| Raise (e : exn).
Arguments Return {A} a.
Arguments Raise {A} e.

(** ** The gateway: environment, response-starting callback, events *)

Abbreviation env := (gmap string value).
Abbreviation table := (gmap string value).

(** One call [start_response(status, headers, exc_info)]. *)
Record sr_call : Type := SrCall {
  sr_status : string;
  sr_headers : list (string * string);
  sr_exc_info : value
}.

(** Who issued a [start_response] call: the wrapped callable (which
    receives the callback as its second argument) or the wrapper. *)
Inductive origin : Type := FromApplication | FromWrapper.

(** What a request makes observable, in order. *)
Inductive event : Type :=
| EvCallWsgi (f : fid) (environ : env)
| EvCallPlain (f : fid) (args : list value) (kw : list (string * value))
| EvStartResponse (who : origin) (c : sr_call).

(** A loaded module: its attributes. *)
Abbreviation module := (gmap string value).

(** Everything the library calls but does not define.  These are
    oracles: they answer, and what they start on the server is
    recorded, but they do not write to the store.  What an imported
    module's body or a handler does to the dictionaries or to
    [sys.path] (a module decorated with [route] registers while it
    loads) is therefore outside this model, and nothing below is stated
    about it.
    - [wsgi_app f history environ]: what [f(environ, start_response)]
      does: the [start_response] calls it issues itself, and how it ends;
    - [plain_app f history args kw]: how [f( *args, **kw)] ends;
    - [server history c]: whether the server's [start_response] raises
      on the call [c] ([None]: it returns);
    - [importer path name]: [__import__(name, '', '', [''])] under
      [sys.path = path]. *)
Record runtime : Type := Runtime {
  wsgi_app : fid -> list event -> env -> list sr_call * outcome value;
  plain_app : fid -> list event -> list value -> list (string * value)
              -> outcome value;
  server : list event -> sr_call -> option exn;
  importer : list string -> string -> outcome module
}.

(** Process state: the dictionaries held by reference, [sys.path], and
    the events so far. *)
Record state : Type := State {
  dicts : gmap loc table;
  sys_path : list string;
  trace : list event
}.

Definition emit (evs : list event) (st : state) : state :=
  State (dicts st) (sys_path st) (trace st ++ evs).

Definition deref (st : state) (l : loc) : table :=
  default ∅ (dicts st !! l).

Definition store (l : loc) (t : table) (st : state) : state :=
  State (<[l := t]> (dicts st)) (sys_path st) (trace st).

(** ** A state-and-exception monad *)

Definition M (A : Type) : Type := state -> state * outcome A.

Definition ret {A} (a : A) : M A := fun st => (st, Return a).
Definition raise {A} (e : exn) : M A := fun st => (st, Raise e).
Definition bind {A B} (m : M A) (k : A -> M B) : M B := fun st =>
  match m st with
  | (st', Return a) => k a st'
  | (st', Raise e) => (st', Raise e)
  end.
Definition lift {A} (o : outcome A) : M A := fun st => (st, o).

Declare Scope py_scope.
Delimit Scope py_scope with py.
Notation "x <- m ;; k" := (bind m (fun x => k))
  (at level 100, m at next level, right associativity) : py_scope.
Notation "m ;;; k" := (bind m (fun _ => k))
  (at level 100, right associativity) : py_scope.
Local Open Scope py_scope.

(** ** Interpreter operations the source relies on *)

(** The items [for x in v] would bind: the characters of a string, the
    keys of a dictionary.  Objects that cannot be iterated raise
    [TypeError]. *)
Definition string_chars (s : string) : list value :=
  (fun c => PyStr (String c "")) <$> String.list_ascii_of_string s.

Definition iter_items (v : value) : outcome (list value) :=
  match v with
  | PyTuple xs | PyList xs | PyIter xs => Return xs
  | PyStr s => Return (string_chars s)
  | PyDict kvs => Return ((fun kv => PyStr kv.1) <$> kvs)
  | PyNone | PyBool _ | PyInt _ | PyFunc _ | PyObject _ | PyClassic _ =>
      Raise (Exn TypeError ("'" +:+ type_name v +:+ "' object is not iterable"))
  end.

(** The assignment [a, b = v]: [TypeError] when [v] is not iterable
    (in particular when it is [None]), [ValueError] when it does not
    hold exactly two items. *)
Definition unpack_pair (v : value) : outcome (value * value) :=
  match iter_items v with
  | Raise e => Raise e
  | Return [a; b] => Return (a, b)
  | Return (_ :: _ :: _ :: _) => Raise (Exn ValueError "too many values to unpack")
  | Return [_] => Raise (Exn ValueError "need more than 1 value to unpack")
  | Return [] => Raise (Exn ValueError "need more than 0 values to unpack")
  end.

(** The positional arguments passed by [f( *v)]. *)
Definition star_args (v : value) : outcome (list value) :=
  match iter_items v with
  | Return xs => Return xs
  | Raise _ =>
      Raise (Exn TypeError
               ("argument after * must be a sequence, not " +:+ type_name v))
  end.

(** The keyword arguments passed by [f( **v)]. *)
Definition star_kwargs (v : value) : outcome (list (string * value)) :=
  match v with
  | PyDict kvs => Return kvs
  | _ =>
      Raise (Exn TypeError
               ("argument after ** must be a mapping, not " +:+ type_name v))
  end.

Definition not_callable (v : value) : exn :=
  Exn TypeError ("'" +:+ type_name v +:+ "' object is not callable").

(** [repr] of a dictionary key, the message of a [KeyError]. *)
Definition repr_key (v : value) : string :=
  match v with
  | PyStr s => "'" +:+ s +:+ "'"
  | PyInt n => pretty n
  | _ => "<" +:+ type_name v +:+ ">"
  end.

(** [d[k]] on a dictionary whose keys are strings. *)
Definition getitem (d : gmap string value) (k : value) : outcome value :=
  match k with
  | PyStr s =>
      match d !! s with
      | Some v => Return v
      | None => Raise (Exn KeyError (repr_key k))
      end
  | _ =>
      if hashable k then Raise (Exn KeyError (repr_key k))
      else Raise (Exn TypeError ("unhashable type: '" +:+ type_name k +:+ "'"))
  end.

(** [s.rindex(c)]: the highest index at which [c] occurs. *)
Fixpoint rindex (c : Ascii.ascii) (s : string) : option nat :=
  match s with
  | EmptyString => None
  | String a s' =>
      match rindex c s' with
      | Some i => Some (S i)
      | None => if Ascii.eqb a c then Some 0%nat else None
      end
  end.

(** The slices [s[:i]] and [s[i:]]. *)
Definition slice_to (i : nat) (s : string) : string :=
  String.substring 0 i s.
Definition slice_from (i : nat) (s : string) : string :=
  String.substring i (String.length s - i) s.

Section Calls.
Context (rt : runtime).

(** [f(environ, start_response)]. *)
Definition call_wsgi (f : value) (environ : env) : M value := fun st =>
  match f with
  | PyFunc n | PyClassic n =>
      let r := wsgi_app rt n (trace st) environ in
      (emit (EvCallWsgi n environ :: (EvStartResponse FromApplication <$> r.1)) st,
       r.2)
  | _ => (st, Raise (not_callable f))
  end.

(** [f( *args, **kw)] once the arguments are laid out. *)
Definition call_plain (f : value) (args : list value)
    (kw : list (string * value)) : M value := fun st =>
  match f with
  | PyFunc n | PyClassic n =>
      (emit [EvCallPlain n args kw] st, plain_app rt n (trace st) args kw)
  | _ => (st, Raise (not_callable f))
  end.

(** The wrapper's own [start_response(status, headers, exc_info)]. *)
Definition call_start_response (c : sr_call) : M unit := fun st =>
  (emit [EvStartResponse FromWrapper c] st,
   match server rt (trace st) c with
   | None => Return tt
   | Some e => Raise e
   end).
End Calls.

(** ** The reason-phrase table *)

(** Modelled from the spec: [BaseHTTPRequestHandler.responses], the
    table of the Python 2 standard library that [response] indexes, is
    not part of the repository.  Each code maps to a pair (reason phrase,
    explanation); the entries are the standard set the specification
    refers to. *)
Definition bhrh_responses : gmap Z (string * string) :=
  list_to_map [
    (100, ("Continue", "Request received, please continue"));
    (101, ("Switching Protocols", "Switching to new protocol; obey Upgrade header"));
    (200, ("OK", "Request fulfilled, document follows"));
    (201, ("Created", "Document created, URL follows"));
    (202, ("Accepted", "Request accepted, processing continues off-line"));
    (203, ("Non-Authoritative Information", "Request fulfilled from cache"));
    (204, ("No Content", "Request fulfilled, nothing follows"));
    (205, ("Reset Content", "Clear input form for further input."));
    (206, ("Partial Content", "Partial content follows."));
    (300, ("Multiple Choices", "Object has several resources -- see URI list"));
    (301, ("Moved Permanently", "Object moved permanently -- see URI list"));
    (302, ("Found", "Object moved temporarily -- see URI list"));
    (303, ("See Other", "Object moved -- see Method and URL list"));
    (304, ("Not Modified", "Document has not changed since given time"));
    (305, ("Use Proxy", "You must use proxy specified in Location to access this resource."));
    (307, ("Temporary Redirect", "Object moved temporarily -- see URI list"));
    (400, ("Bad Request", "Bad request syntax or unsupported method"));
    (401, ("Unauthorized", "No permission -- see authorization schemes"));
    (402, ("Payment Required", "No payment -- see charging schemes"));
    (403, ("Forbidden", "Request forbidden -- authorization will not help"));
    (404, ("Not Found", "Nothing matches the given URI"));
    (405, ("Method Not Allowed", "Specified method is invalid for this resource."));
    (406, ("Not Acceptable", "URI not available in preferred format."));
    (407, ("Proxy Authentication Required", "You must authenticate with this proxy before proceeding."));
    (408, ("Request Timeout", "Request timed out; try again later."));
    (409, ("Conflict", "Request conflict."));
    (410, ("Gone", "URI no longer exists and has been permanently removed."));
    (411, ("Length Required", "Client must specify Content-Length."));
    (412, ("Precondition Failed", "Precondition in headers is false."));
    (413, ("Request Entity Too Large", "Entity is too large."));
    (414, ("Request-URI Too Long", "URI is too long."));
    (415, ("Unsupported Media Type", "Entity body in unsupported format."));
    (416, ("Requested Range Not Satisfiable", "Cannot satisfy request range."));
    (417, ("Expectation Failed", "Expect condition could not be satisfied."));
    (500, ("Internal Server Error", "Server got itself in trouble"));
    (501, ("Not Implemented", "Server does not support this operation"));
    (502, ("Bad Gateway", "Invalid responses from another server/proxy."));
    (503, ("Service Unavailable", "The server cannot process the request due to a high load"));
    (504, ("Gateway Timeout", "The gateway server did not receive a timely response"));
    (505, ("HTTP Version Not Supported", "Cannot fulfill request."))
  ].

(** ** Constructor keywords *)

(** The keywords [**kw] understood by [Wsgize.__init__]; [None] is an
    absent keyword.  [kw_headers] lists the items of the [headers]
    dictionary in iteration order. *)
Record wsgize_kw : Type := WsgizeKw {
  kw_response : option Z;
  kw_headers : option (list (string * string));
  kw_mime : option string;
  kw_exc_info : option value;
  kw_kwargs : option string;
  kw_args : option string;
  kw_routing_args : option string
}.

Definition no_kw : wsgize_kw := WsgizeKw None None None None None None None.

(** The keywords understood by [WsgiRoute.__init__] ([key] is spelled
    [kwargkey] in version 0.1). *)
Record route_kw : Type := RouteKw {
  kw_modpath : option string;
  kw_key : option string;
  kw_syspaths : option (list string)
}.

Definition no_route_kw : route_kw := RouteKw None None None.

(** [list((key, exheaders[key]) for key in exheaders)]. *)
Definition header_items (exheaders : list (string * string))
    : list (string * string) :=
  omap (fun key => pair key <$> (list_to_map exheaders : gmap string string) !! key)
       (exheaders.*1).

(** * Version 0.3 *)

Module V03.

(** [routes = dict()]: the module-level routing table lives at a fixed
    location of the store, so every holder of the reference sees the
    same dictionary. *)
Definition routes : loc := 0%nat.

(** [routes[name] = application]. *)
Definition register (name : string) (application : value) : M unit :=
  fun st =>
    (store routes (<[name := application]> (deref st routes)) st, Return tt).

(** ['%i %s' % (code, _bhrh.responses[code][0])]. *)
Definition response (code : Z) : outcome string :=
  match bhrh_responses !! code with
  | Some entry => Return (pretty code +:+ " " +:+ entry.1)
  | None => Raise (Exn KeyError (pretty code))
  end.

(** [route(name)] is the decorator; applied to [application] it
    registers it and returns it. *)
Definition route (name : string) (application : value) : M value :=
  register name application ;;; ret application.

Module Wsgize.

Record t : Type := Make {
  application : value;
  start_response : string;
  headers : list (string * string);
  exc_info : value;
  kwargkey : string;
  argkey : string;
  key : string
}.

Definition __init__ (app : value) (kw : wsgize_kw) : outcome t :=
  match response (default 200 (kw_response kw)) with
  | Raise e => Raise e
  | Return status =>
      let exheaders := default [] (kw_headers kw) in
      let headers := header_items exheaders in
      Return {|
        application := app;
        start_response := status;
        headers := ("Content-type", default "text/html" (kw_mime kw)) :: headers;
        exc_info := default PyNone (kw_exc_info kw);
        kwargkey := default "wsgize.kwargs" (kw_kwargs kw);
        argkey := default "wsgize.args" (kw_args kw);
        key := default "wsgiorg.routing_args" (kw_routing_args kw)
      |}
  end.

(** The call the wrapper issues on the server's callback. *)
Definition autogenerated (self : t) : sr_call :=
  SrCall (start_response self) (headers self) (exc_info self).

Section Call.
Context (rt : runtime).

Definition __call__ (self : t) (environ : env) : M value :=
  data <- call_wsgi rt (application self) environ ;;
  call_start_response rt (autogenerated self) ;;;
  if hasattr_iter data then
    if is_basestring data then ret (PyList [data]) else ret data
  else
    raise (Exn TypeError
             "Data returned by callable must be iterable or string.").
End Call.

End Wsgize.

(** [wsgize( **kw)] is the decorator building a [Wsgize]. *)
Definition wsgize (kw : wsgize_kw) (application : value) : outcome Wsgize.t :=
  Wsgize.__init__ application kw.

Module WsgiWrap.

(** The [try: ... except ValueError: ...] block that binds [args]
    and [kw]. *)
Definition routing_args (self : Wsgize.t) (environ : env)
    : outcome (value * value) :=
  match unpack_pair (default PyNone (environ !! Wsgize.key self)) with
  | Return p => Return p
  | Raise e =>
      match exn_class_of e with
      | ValueError =>
          Return (default (PyTuple []) (environ !! Wsgize.argkey self),
                  default (PyDict []) (environ !! Wsgize.kwargkey self))
      | _ => Raise e
      end
  end.

Section Call.
Context (rt : runtime).

(** [self.application( *args, **kw)] with either part optional. *)
Definition apply (f : value) (args kw : option value) : M value :=
  a <- lift (from_option star_args (Return []) args) ;;
  k <- lift (from_option star_kwargs (Return []) kw) ;;
  call_plain rt f a k.

(** The [if]/[elif] chain; [None] is the local [data] left
    unbound when no branch is taken. *)
Definition dispatch (self : Wsgize.t) (args kw : value)
    : M (option value) :=
  let f := Wsgize.application self in
  if truthy args && truthy kw then
    d <- apply f (Some args) (Some kw) ;; ret (Some d)
  else if truthy args then
    d <- apply f (Some args) None ;; ret (Some d)
  else if truthy kw then
    d <- apply f None (Some kw) ;; ret (Some d)
  else ret None.

(** Reading the local [data]. *)
Definition read_data (data : option value) : M value :=
  match data with
  | Some d => ret d
  | None =>
      raise (Exn UnboundLocalError
               "local variable 'data' referenced before assignment")
  end.

Definition __call__ (self : Wsgize.t) (environ : env) : M value :=
  p <- lift (routing_args self environ) ;;
  data <- dispatch self p.1 p.2 ;;
  call_start_response rt (Wsgize.autogenerated self) ;;;
  d <- read_data data ;;
  if is_basestring d then ret (PyList [d]) else ret d.
End Call.

End WsgiWrap.

(** [wsgiwrap( **kw)] is the decorator building a [WsgiWrap]. *)
Definition wsgiwrap (kw : wsgize_kw) (application : value) : outcome Wsgize.t :=
  Wsgize.__init__ application kw.

Module WsgiRoute.

Record t : Type := Make {
  table : loc;
  modpath : string;
  key : string
}.

(** [table] is [None] or a reference to the caller's dictionary. *)
Definition __init__ (table : option loc) (kw : route_kw) : M t :=
  fun st =>
    let self := {|
      table := match table with Some l => l | None => routes end;
      modpath := default "" (kw_modpath kw);
      key := default "wsgize.callable" (kw_key kw)
    |} in
    let path :=
      match kw_syspaths kw with
      | Some syspaths => foldl (fun (p : list string) path => (p ++ [path])%list) (sys_path st) syspaths
      | None => sys_path st
      end in
    (State (dicts st) path (trace st), Return self).

Definition getmodfunc (self : t) (callback : value)
    : outcome (string * string) :=
  let joined :=
    if negb (String.eqb (modpath self) "") then
      match callback with
      | PyStr s => Return (PyStr (modpath self +:+ "." +:+ s))
      | _ =>
          Raise (Exn TypeError
                   ("sequence item 1: expected string, "
                      +:+ type_name callback +:+ " found"))
      end
    else Return callback in
  match joined with
  | Raise e => Raise e
  | Return (PyStr s) =>
      match rindex "."%char s with
      | Some dot => Return (slice_to dot s, slice_from (dot + 1) s)
      | None => Raise (Exn ValueError "substring not found")
      end
  | Return v =>
      Raise (Exn AttributeError
               ("'" +:+ type_name v +:+ "' object has no attribute 'rindex'"))
  end.

Section Call.
Context (rt : runtime).

(** [getattr(__import__(mod_name, '', '', ['']), func_name)]. *)
Definition import_attr (mod_name func_name : string) : M value :=
  fun st =>
    (st,
     match importer rt (sys_path st) mod_name with
     | Raise e => Raise e
     | Return m =>
         match m !! func_name with
         | Some v => Return v
         | None =>
             Raise (Exn AttributeError
                      ("'module' object has no attribute '"
                         +:+ func_name +:+ "'"))
         end
     end).

Definition getcallback (self : t) (callback : value) : M value :=
  p <- lift (getmodfunc self callback) ;;
  let mod_name := p.1 in
  let func_name := p.2 in
  fun st =>
    match import_attr mod_name func_name st with
    | (st', Return v) => (st', Return v)
    | (st', Raise error) =>
        match exn_class_of error with
        | ImportError =>
            (st', Raise (Exn ImportError
                           ("Could not import " +:+ mod_name
                              +:+ ". Error was: " +:+ exn_msg error)))
        | AttributeError =>
            (st', Raise (Exn AttributeError
                           ("Tried " +:+ func_name +:+ " in module "
                              +:+ mod_name +:+ ". Error was: "
                              +:+ exn_msg error)))
        | _ => (st', Raise error)
        end
    end.

Definition lookup (self : t) (kw : value) : M value :=
  fun st =>
    (callback <- lift (getitem (deref st (table self)) kw) ;;
     if hasattr_call callback then ret callback
     else getcallback self callback) st.

Definition __call__ (self : t) (environ : env) : M value :=
  kw <- lift (getitem environ (PyStr (key self))) ;;
  callback <- lookup self kw ;;
  call_wsgi rt callback environ.
End Call.

End WsgiRoute.

End V03.

(** * Version 0.1 *)

(** The functions of the module as they are written.  (Its line 41,
    [thing = set('Allow', 'Content-Encoding', ...)], passes 28 arguments
    to [set] and is not part of any function below.) *)
Module V01.

Definition response (code : Z) : outcome string :=
  match bhrh_responses !! code with
  | Some entry => Return (pretty code +:+ " " +:+ entry.1)
  | None => Raise (Exn KeyError (pretty code))
  end.

Module Wsgize.

Record t : Type := Make {
  application : value;
  start_response : string;
  headers : list (string * string);
  exc_info : value;
  kwargkey : string;
  argkey : string
}.

Definition __init__ (app : value) (kw : wsgize_kw) : outcome t :=
  match response (default 200 (kw_response kw)) with
  | Raise e => Raise e
  | Return status =>
      let exheaders := default [] (kw_headers kw) in
      let headers := header_items exheaders in
      Return {|
        application := app;
        start_response := status;
        headers := ("Content-type", default "text/html" (kw_mime kw)) :: headers;
        exc_info := default PyNone (kw_exc_info kw);
        kwargkey := default "wsgize.kwargs" (kw_kwargs kw);
        argkey := default "wsgize.args" (kw_args kw)
      |}
  end.

Definition autogenerated (self : t) : sr_call :=
  SrCall (start_response self) (headers self) (exc_info self).

Section Call.
Context (rt : runtime).

Definition __call__ (self : t) (environ : env) : M value :=
  data <- call_wsgi rt (application self) environ ;;
  call_start_response rt (autogenerated self) ;;;
  if hasattr_iter data then
    if is_basestring data then ret (PyList [data]) else ret data
  else
    raise (Exn TypeError
             "Data returned by callable must be iterable or string.").
End Call.

End Wsgize.

Definition wsgize (kw : wsgize_kw) (application : value) : outcome Wsgize.t :=
  Wsgize.__init__ application kw.

Module WsgiWrap.

Section Call.
Context (rt : runtime).

Definition apply (f : value) (args kw : option value) : M value :=
  a <- lift (from_option star_args (Return []) args) ;;
  k <- lift (from_option star_kwargs (Return []) kw) ;;
  call_plain rt f a k.

Definition dispatch (self : Wsgize.t) (args kw : value)
    : M (option value) :=
  let f := Wsgize.application self in
  if truthy args && truthy kw then
    d <- apply f (Some args) (Some kw) ;; ret (Some d)
  else if truthy args then
    d <- apply f (Some args) None ;; ret (Some d)
  else if truthy kw then
    d <- apply f None (Some kw) ;; ret (Some d)
  else ret None.

Definition read_data (data : option value) : M value :=
  match data with
  | Some d => ret d
  | None =>
      raise (Exn UnboundLocalError
               "local variable 'data' referenced before assignment")
  end.

Definition __call__ (self : Wsgize.t) (environ : env) : M value :=
  let args := default (PyBool false) (environ !! Wsgize.argkey self) in
  let kw := default (PyBool false) (environ !! Wsgize.kwargkey self) in
  data <- dispatch self args kw ;;
  call_start_response rt (Wsgize.autogenerated self) ;;;
  d <- read_data data ;;
  if is_basestring d then ret (PyList [d]) else ret d.
End Call.

End WsgiWrap.

Definition wsgiwrap (kw : wsgize_kw) (application : value) : outcome Wsgize.t :=
  Wsgize.__init__ application kw.

Module WsgiRoute.

Record t : Type := Make {
  table : loc;
  modpath : string;
  kwargkey : string
}.

(** [args] are the positional arguments; the first is the table. *)
Definition __init__ (args : list loc) (kw : route_kw) : M t :=
  fun st =>
    match args with
    | [] => (st, Raise (Exn IndexError "tuple index out of range"))
    | table0 :: _ =>
        let self := {|
          table := table0;
          modpath := default "" (kw_modpath kw);
          kwargkey := default "wsgize.callable" (kw_key kw)
        |} in
        let path :=
          match kw_syspaths kw with
          | Some syspaths =>
              foldl (fun (p : list string) path => (p ++ [path])%list)
                    (sys_path st) syspaths
          | None => sys_path st
          end in
        (State (dicts st) path (trace st), Return self)
    end.

Definition get_mod_func (self : t) (callback : value)
    : outcome (string * string) :=
  let joined :=
    if negb (String.eqb (modpath self) "") then
      match callback with
      | PyStr s => Return (PyStr (modpath self +:+ "." +:+ s))
      | _ =>
          Raise (Exn TypeError
                   ("sequence item 1: expected string, "
                      +:+ type_name callback +:+ " found"))
      end
    else Return callback in
  match joined with
  | Raise e => Raise e
  | Return (PyStr s) =>
      match rindex "."%char s with
      | Some dot => Return (slice_to dot s, slice_from (dot + 1) s)
      | None => Raise (Exn ValueError "substring not found")
      end
  | Return v =>
      Raise (Exn AttributeError
               ("'" +:+ type_name v +:+ "' object has no attribute 'rindex'"))
  end.

Section Call.
Context (rt : runtime).

Definition import_attr (mod_name func_name : string) : M value :=
  fun st =>
    (st,
     match importer rt (sys_path st) mod_name with
     | Raise e => Raise e
     | Return m =>
         match m !! func_name with
         | Some v => Return v
         | None =>
             Raise (Exn AttributeError
                      ("'module' object has no attribute '"
                         +:+ func_name +:+ "'"))
         end
     end).

Definition get_callback (self : t) (callback : value) : M value :=
  p <- lift (get_mod_func self callback) ;;
  let mod_name := p.1 in
  let func_name := p.2 in
  fun st =>
    match import_attr mod_name func_name st with
    | (st', Return v) => (st', Return v)
    | (st', Raise error) =>
        match exn_class_of error with
        | ImportError =>
            (st', Raise (Exn ImportError
                           ("Could not import " +:+ mod_name
                              +:+ ". Error was: " +:+ exn_msg error)))
        | AttributeError =>
            (st', Raise (Exn AttributeError
                           ("Tried " +:+ func_name +:+ " in module "
                              +:+ mod_name +:+ ". Error was: "
                              +:+ exn_msg error)))
        | _ => (st', Raise error)
        end
    end.

Definition lookup (self : t) (kw : value) : M value :=
  fun st =>
    (callable <- lift (getitem (deref st (table self)) kw) ;;
     if negb (is_basestring callable) then ret callable
     else get_callback self callable) st.

Definition __call__ (self : t) (environ : env) : M value :=
  kw <- lift (getitem environ (PyStr (kwargkey self))) ;;
  callback <- lookup self kw ;;
  call_wsgi rt callback environ.
End Call.

End WsgiRoute.

End V01.


(** * Observations, fixtures and reference behaviours *)

(** The [start_response] calls issued by the wrapper itself. *)
Definition wrapper_calls (evs : list event) : list sr_call :=
  omap (fun ev =>
          match ev with
          | EvStartResponse FromWrapper c => Some c
          | _ => None
          end) evs.

(** [evs] is what happened between [st] and [st']; the store and
    [sys.path] are untouched. *)
Definition extends (st st' : state) (evs : list event) : Prop :=
  st' = emit evs st.

(** A small world: callable 0 returns the text [hello], 1 returns a list
    of chunks, 2 returns an integer, 3 starts a response and then fails,
    every other callable returns [None]; as plain functions they all
    return the tuple of their positional arguments, except 2 which
    returns the integer 5; the server accepts every [start_response];
    only the module [mypkg.handlers] can be imported, and it defines
    [greet] as callable 1. *)
Definition demo_rt : runtime :=
  Runtime
    (fun f _ _ =>
       match f with
       | 0%nat => ([], Return (PyStr "hello"))
       | 1%nat => ([], Return (PyList [PyStr "a"; PyStr "b"; PyStr "c"]))
       | 2%nat => ([], Return (PyInt 5))
       | 3%nat => ([SrCall "404 Not Found" [] PyNone],
                   Raise (Exn (OtherError "RuntimeError") "boom"))
       | _ => ([], Return PyNone)
       end)
    (fun f _ args _ =>
       match f with
       | 2%nat => Return (PyInt 5)
       | _ => Return (PyTuple args)
       end)
    (fun _ _ => None)
    (fun _ name =>
       if String.eqb name "mypkg.handlers"
       then Return ({[ "greet" := PyFunc 1%nat ]} : gmap string value)
       else Raise (Exn ImportError ("No module named " +:+ name))).

Definition st0 : state := State ∅ [] [].

(** The wrappers obtained with no keyword at all. *)
Definition default_wsgize (app : value) : V03.Wsgize.t :=
  V03.Wsgize.Make app "200 OK" [("Content-type", "text/html")] PyNone
                  "wsgize.kwargs" "wsgize.args" "wsgiorg.routing_args".

Definition default_wsgize_01 (app : value) : V01.Wsgize.t :=
  V01.Wsgize.Make app "200 OK" [("Content-type", "text/html")] PyNone
                  "wsgize.kwargs" "wsgize.args".

(** The message of the wrapper's own [TypeError]. *)
Definition invalid_output : exn :=
  Exn TypeError "Data returned by callable must be iterable or string.".

(** A version 0.1 wrapper seen as a version 0.3 one. *)
Definition upgrade (w : V01.Wsgize.t) : V03.Wsgize.t :=
  V03.Wsgize.Make (V01.Wsgize.application w) (V01.Wsgize.start_response w)
                  (V01.Wsgize.headers w) (V01.Wsgize.exc_info w)
                  (V01.Wsgize.kwargkey w) (V01.Wsgize.argkey w)
                  "wsgiorg.routing_args".

(** How [Wsgize.__call__] ends once the wrapped callable has returned
    [data], written as a function of the server's answer. *)
Definition normalized (answer : option exn) (data : value) : outcome value :=
  match answer with
  | Some e => Raise e
  | None =>
      if hasattr_iter data then
        if is_basestring data then Return (PyList [data]) else Return data
      else Raise invalid_output
  end.

(** The exception raised by unpacking [None]. *)
Definition none_not_iterable : exn :=
  Exn TypeError "'NoneType' object is not iterable".

(** Reading the unbound local [data]. *)
Definition data_unbound : exn :=
  Exn UnboundLocalError "local variable 'data' referenced before assignment".

(** How [WsgiWrap.__call__] ends after the [if]/[elif] chain, written as
    a function of the server's answer and of the local [data]. *)
Definition wrapped (answer : option exn) (data : option value) : outcome value :=
  match answer with
  | Some e => Raise e
  | None =>
      match data with
      | None => Raise data_unbound
      | Some d => Return (if is_basestring d then PyList [d] else d)
      end
  end.

(** An environment carrying both the combined key and the two separate
    keys, with different arguments. *)
Definition both_env : env :=
  <[ "wsgiorg.routing_args" :=
       PyTuple [PyTuple [PyInt 1; PyInt 2]; PyDict [("x", PyInt 3)]] ]>
  (<[ "wsgize.args" := PyTuple [PyInt 7] ]>
  (<[ "wsgize.kwargs" := PyDict [("y", PyInt 8)] ]> ∅)).

(** Only the separate positional key. *)
Definition args_env : env :=
  <[ "wsgize.args" := PyTuple [PyInt 1; PyInt 2] ]> ∅.

(** The combined key holding one positional argument and no keyword. *)
Definition one_arg_env : env :=
  <[ "wsgiorg.routing_args" := PyTuple [PyTuple [PyInt 1]; PyDict []] ]> ∅.

(** The state a computation leaves. *)
Definition exec {A} (m : M A) (st : state) : state := (m st).1.

(** A table with a live callable and a dotted path. *)
Definition greet_table : table :=
  <[ "greet" := PyFunc 1%nat ]> (<[ "lazy" := PyStr "mypkg.handlers.greet" ]> ∅).

(** A store holding that table at location 1; the shared table is
    empty. *)
Definition greet_state : state := State (<[ 1%nat := greet_table ]> ∅) [] [].

Definition greet_route : V03.WsgiRoute.t :=
  V03.WsgiRoute.Make 1%nat "" "wsgize.callable".

Definition greet_route_01 : V01.WsgiRoute.t :=
  V01.WsgiRoute.Make 1%nat "" "wsgize.callable".

Definition greet_env : env := <[ "wsgize.callable" := PyStr "greet" ]> ∅.
Definition lazy_env : env := <[ "wsgize.callable" := PyStr "lazy" ]> ∅.
Definition missing_env : env := <[ "wsgize.callable" := PyStr "missing" ]> ∅.
Definition nodot_env : env := <[ "wsgize.callable" := PyStr "plain" ]> ∅.

(** A store whose table at location 1 holds a name without any dot. *)
Definition plain_state : state :=
  State (<[ 1%nat := <[ "plain" := PyStr "greet" ]> ∅ ]> ∅) [] [].

(** A table holding an old-style class, at location 1 of a store. *)
Definition classic_table : table := <[ "app" := PyClassic 1%nat ]> ∅.

Definition classic_state : state :=
  State (<[ 1%nat := classic_table ]> ∅) [] [].

Definition app_env : env := <[ "wsgize.callable" := PyStr "app" ]> ∅.

(** The dispatcher built with no table and no keyword. *)
Definition shared_route : V03.WsgiRoute.t :=
  V03.WsgiRoute.Make V03.routes "" "wsgize.callable".

(** The state after [route(name)] has decorated [application]. *)
Definition registered (name : string) (application : value) (st : state)
    : state :=
  exec (V03.route name application) st.

(** The dotted name that [getmodfunc] splits: the table entry, prefixed
    by the module path when there is one. *)
Definition dotted (modpath s : string) : string :=
  if negb (String.eqb modpath "") then modpath +:+ "." +:+ s else s.

(** Every [start_response] call of a stretch of events, with its
    issuer. *)
Definition start_responses (evs : list event) : list (origin * sr_call) :=
  omap (fun ev =>
          match ev with
          | EvStartResponse who c => Some (who, c)
          | _ => None
          end) evs.

(** A world with a stricter server: called the gateway way, every
    callable starts its own response and returns a list of chunks;
    called as a plain function it returns the text [hello];
    [start_response] raises when a response has already been started. *)
Definition strict_rt : runtime :=
  Runtime
    (fun _ _ _ => ([SrCall "200 OK" [] PyNone], Return (PyList [PyStr "x"])))
    (fun _ _ _ _ => Return (PyStr "hello"))
    (fun history _ =>
       match start_responses history with
       | [] => None
       | _ :: _ => Some (Exn (OtherError "AssertionError") "Headers already set!")
       end)
    (fun _ name => Raise (Exn ImportError ("No module named " +:+ name))).

(** Keywords with a status code, a media type and two extra headers. *)
Definition rich_kw : wsgize_kw :=
  WsgizeKw (Some 404) (Some [("X-Frame", "deny"); ("Content-type", "text/css")])
           (Some "text/plain") None None None None.

(** The local [data] after a call that ends as [o]. *)
Definition bound (o : outcome value) : outcome (option value) :=
  match o with
  | Return d => Return (Some d)
  | Raise e => Raise e
  end.

(** The routing key holding a two-character string, with the separate
    keys present. *)
Definition string_pair_env : env :=
  <[ "wsgiorg.routing_args" := PyStr "ab" ]>
  (<[ "wsgize.args" := PyTuple [PyInt 7] ]> ∅).

(** The routing key holding an empty tuple, with a positional argument
    under the separate key. *)
Definition fallback_env : env :=
  <[ "wsgiorg.routing_args" := PyTuple [] ]>
  (<[ "wsgize.args" := PyTuple [PyInt 7] ]> ∅).

(** The routing key holding a number. *)
Definition number_env : env := <[ "wsgiorg.routing_args" := PyInt 5 ]> ∅.

(** A store whose location 1 holds a table with an entry that is
    neither a string nor a callable, and a dotted path to a module
    attribute that is not callable either. *)
Definition odd_state : state :=
  State (<[ 1%nat := <[ "five" := PyInt 5 ]> (<[ "lazy" := PyStr "conf.limit" ]> ∅) ]> ∅)
        [] [].

(** A world in which the module [conf] defines [limit] as the number
    10. *)
Definition conf_rt : runtime :=
  Runtime
    (fun _ _ _ => ([], Return PyNone))
    (fun _ _ _ _ => Return PyNone)
    (fun _ _ => None)
    (fun _ name =>
       if String.eqb name "conf"
       then Return ({[ "limit" := PyInt 10 ]} : gmap string value)
       else Raise (Exn ImportError ("No module named " +:+ name))).

Definition five_env : env := <[ "wsgize.callable" := PyStr "five" ]> ∅.

(** Keywords of a dispatcher with two extra module directories. *)
Definition paths_kw : route_kw :=
  RouteKw None None (Some ["/srv/app"; "/srv/lib"]).

(** The routing key holding a pair of an empty tuple and an empty
    dictionary. *)
Definition empty_pair_env : env :=
  <[ "wsgiorg.routing_args" := PyTuple [PyTuple []; PyDict []] ]> ∅.

(** The steps of the monad, unfolded together in the proofs below. *)
Create HintDb py discriminated.
#[local] Hint Unfold bind lift ret raise : py.

Ltac run := autounfold with py.


(** * Properties *)

(** * Basic facts *)

Lemma emit_nil st : emit [] st = st.
Proof. destruct st; unfold emit; simpl. by rewrite app_nil_r. Qed.

Lemma emit_emit evs1 evs2 st : emit evs2 (emit evs1 st) = emit (evs1 ++ evs2) st.
Proof. unfold emit; simpl. by rewrite app_assoc. Qed.

Lemma wrapper_calls_app evs1 evs2 :
  wrapper_calls (evs1 ++ evs2) = wrapper_calls evs1 ++ wrapper_calls evs2.
Proof. unfold wrapper_calls. apply omap_app. Qed.

Lemma wrapper_calls_from_application (calls : list sr_call) :
  wrapper_calls (EvStartResponse FromApplication <$> calls) = [].
Proof. induction calls as [|c calls IH]; [done | exact IH]. Qed.

Lemma default_wsgize_init app :
  V03.Wsgize.__init__ app no_kw = Return (default_wsgize app).
Proof. reflexivity. Qed.

Lemma default_wsgize_01_init app :
  V01.Wsgize.__init__ app no_kw = Return (default_wsgize_01 app).
Proof. reflexivity. Qed.

(** Whatever a gateway call of a wrapped callable does, it adds no
    wrapper-issued [start_response]. *)
Lemma call_wsgi_extends rt f environ st st' o :
  call_wsgi rt f environ st = (st', o) ->
  exists evs, extends st st' evs /\ wrapper_calls evs = [].
Proof.
  unfold call_wsgi. destruct f; intros [= <- <-];
    try (exists []; split; [unfold extends; by rewrite emit_nil | done]).
  all: eexists; split; [reflexivity |].
  all: simpl; apply wrapper_calls_from_application.
Qed.

(** * The status formatter *)

(** C1: for every status code [c] of the reason-phrase table,
    [response c] is the text "<c> <reason phrase of c>", in both
    versions; for every integer code outside the table [response] fails
    with the dictionary's [KeyError] and substitutes no phrase; in
    particular 200, 404 and 500 give "200 OK", "404 Not Found" and
    "500 Internal Server Error". *)
Theorem response_status_line :
  (forall (c : Z) (phrase explanation : string),
      bhrh_responses !! c = Some (phrase, explanation) ->
      V03.response c = Return (pretty c +:+ " " +:+ phrase) /\
      V01.response c = Return (pretty c +:+ " " +:+ phrase)) /\
  (forall c : Z,
      bhrh_responses !! c = None ->
      exists msg, V03.response c = Raise (Exn KeyError msg) /\
                  V01.response c = Raise (Exn KeyError msg)) /\
  V03.response 200 = Return "200 OK" /\
  V03.response 404 = Return "404 Not Found" /\
  V03.response 500 = Return "500 Internal Server Error" /\
  V01.response 200 = Return "200 OK" /\
  V01.response 404 = Return "404 Not Found" /\
  V01.response 500 = Return "500 Internal Server Error".
Proof.
  split; [| split].
  - intros c phrase explanation Hc.
    unfold V03.response, V01.response. by rewrite Hc.
  - intros c Hc. exists (pretty c).
    unfold V03.response, V01.response. by rewrite Hc.
  - repeat split; reflexivity.
Qed.

Lemma response_status_line_witness :
  bhrh_responses !! 301 = Some ("Moved Permanently",
                                "Object moved permanently -- see URI list") /\
  V03.response 301 = Return "301 Moved Permanently" /\
  bhrh_responses !! 999 = None /\
  exists msg, V03.response 999 = Raise (Exn KeyError msg).
Proof.
  split; [reflexivity |].
  split.
  - exact (proj1 (proj1 response_status_line 301 _ _ eq_refl)).
  - split; [reflexivity |].
    destruct (proj1 (proj2 response_status_line) 999 eq_refl) as [msg [H _]].
    exists msg. exact H.
Defined.

(** * The gateway autogeneration wrapper *)

Lemma wsgize_call_01_03 rt (w : V01.Wsgize.t) environ st :
  V01.Wsgize.__call__ rt w environ st =
  V03.Wsgize.__call__ rt (upgrade w) environ st.
Proof. reflexivity. Qed.

(** The whole of [Wsgize.__call__] after a normal return of the wrapped
    callable. *)
Lemma wsgize_call_returned rt (self : V03.Wsgize.t) environ st st1 data :
  call_wsgi rt (V03.Wsgize.application self) environ st = (st1, Return data) ->
  V03.Wsgize.__call__ rt self environ st =
    (emit [EvStartResponse FromWrapper (V03.Wsgize.autogenerated self)] st1,
     normalized (server rt (trace st1) (V03.Wsgize.autogenerated self)) data).
Proof.
  intros Hcall. unfold V03.Wsgize.__call__; run. rewrite Hcall.
  unfold call_start_response, normalized.
  destruct (server rt (trace st1) _); [done |].
  destruct (hasattr_iter data); [| done].
  by destruct (is_basestring data).
Qed.

(** The wrapper calls the wrapped callable first and then, when that
    returned, [start_response] exactly once with its precomputed
    values. *)
Lemma wsgize_start_response_once rt (self : V03.Wsgize.t) environ st st1 data :
  call_wsgi rt (V03.Wsgize.application self) environ st = (st1, Return data) ->
  exists evs o,
    V03.Wsgize.__call__ rt self environ st =
      (emit (evs ++ [EvStartResponse FromWrapper (V03.Wsgize.autogenerated self)]) st, o) /\
    extends st st1 evs /\
    wrapper_calls (evs ++ [EvStartResponse FromWrapper (V03.Wsgize.autogenerated self)])
      = [V03.Wsgize.autogenerated self].
Proof.
  intros Hcall.
  destruct (call_wsgi_extends _ _ _ _ _ _ Hcall) as (evs & Hext & Hnone).
  exists evs. eexists. split; [| split; [exact Hext |]].
  - rewrite (wsgize_call_returned _ _ _ _ _ _ Hcall).
    rewrite Hext, emit_emit. reflexivity.
  - rewrite wrapper_calls_app, Hnone. reflexivity.
Qed.

(** An iterable result that is not text is handed back as it is. *)
Lemma wsgize_iterable_unchanged rt (self : V03.Wsgize.t) environ st st1 data :
  call_wsgi rt (V03.Wsgize.application self) environ st = (st1, Return data) ->
  server rt (trace st1) (V03.Wsgize.autogenerated self) = None ->
  hasattr_iter data = true ->
  (V03.Wsgize.__call__ rt self environ st).2 = Return data.
Proof.
  intros Hcall Hsrv Hiter.
  rewrite (wsgize_call_returned _ _ _ _ _ _ Hcall). simpl.
  unfold normalized. rewrite Hsrv, Hiter.
  by destruct data.
Qed.

(** A result without [__iter__] is refused with the fixed message. *)
Lemma wsgize_not_iterable_refused rt (self : V03.Wsgize.t) environ st st1 data :
  call_wsgi rt (V03.Wsgize.application self) environ st = (st1, Return data) ->
  server rt (trace st1) (V03.Wsgize.autogenerated self) = None ->
  hasattr_iter data = false ->
  (V03.Wsgize.__call__ rt self environ st).2 = Raise invalid_output.
Proof.
  intros Hcall Hsrv Hiter.
  rewrite (wsgize_call_returned _ _ _ _ _ _ Hcall). simpl.
  unfold normalized. by rewrite Hsrv, Hiter.
Qed.

(** C2, on the code: a [Wsgize] built with no keyword around a callable
    that returns the text [hello] calls the callable, then
    [start_response] once with "200 OK" and the single [Content-type]
    header, and then raises [TypeError] instead of returning the list
    holding [hello]: the test [hasattr(data, '__iter__')] fails on a
    Python 2 string before [isinstance(data, basestring)] is reached. *)
Theorem default_wsgize_hello rt (f : fid) environ st calls :
  wsgi_app rt f (trace st) environ = (calls, Return (PyStr "hello")) ->
  (forall h c, server rt h c = None) ->
  V03.Wsgize.__init__ (PyFunc f) no_kw = Return (default_wsgize (PyFunc f)) /\
  V03.Wsgize.__call__ rt (default_wsgize (PyFunc f)) environ st =
    (emit (EvCallWsgi f environ :: (EvStartResponse FromApplication <$> calls)
             ++ [EvStartResponse FromWrapper
                   (SrCall "200 OK" [("Content-type", "text/html")] PyNone)]) st,
     Raise invalid_output).
Proof.
  intros Happ Hsrv. split; [reflexivity |].
  unfold V03.Wsgize.__call__, bind, call_wsgi; simpl.
  rewrite Happ; simpl.
  unfold call_start_response. rewrite Hsrv. simpl.
  rewrite emit_emit. reflexivity.
Qed.

Lemma default_wsgize_hello_witness :
  V03.Wsgize.__call__ demo_rt (default_wsgize (PyFunc 0%nat)) ∅ st0 =
    (State ∅ []
       [EvCallWsgi 0%nat ∅;
        EvStartResponse FromWrapper
          (SrCall "200 OK" [("Content-type", "text/html")] PyNone)],
     Raise invalid_output).
Proof.
  exact (proj2 (default_wsgize_hello demo_rt 0%nat ∅ st0 [] eq_refl
                  (fun _ _ => eq_refl))).
Defined.

(** C3, on the code: in both versions, when the wrapped callable returns
    a single text value and the server accepts the wrapper's
    [start_response], [Wsgize.__call__] raises the [TypeError] "Data
    returned by callable must be iterable or string." and returns
    nothing; the one-element list is never built. *)
Theorem wsgize_text_refused rt environ st st1 (s : string) :
  (forall self : V03.Wsgize.t,
      call_wsgi rt (V03.Wsgize.application self) environ st
        = (st1, Return (PyStr s)) ->
      server rt (trace st1) (V03.Wsgize.autogenerated self) = None ->
      V03.Wsgize.__call__ rt self environ st =
        (emit [EvStartResponse FromWrapper (V03.Wsgize.autogenerated self)] st1,
         Raise invalid_output)) /\
  (forall self : V01.Wsgize.t,
      call_wsgi rt (V01.Wsgize.application self) environ st
        = (st1, Return (PyStr s)) ->
      server rt (trace st1) (V01.Wsgize.autogenerated self) = None ->
      V01.Wsgize.__call__ rt self environ st =
        (emit [EvStartResponse FromWrapper (V01.Wsgize.autogenerated self)] st1,
         Raise invalid_output)).
Proof.
  split.
  - intros self Hcall Hsrv.
    rewrite (wsgize_call_returned _ _ _ _ _ _ Hcall).
    unfold normalized. by rewrite Hsrv.
  - intros self Hcall Hsrv.
    rewrite wsgize_call_01_03.
    rewrite (wsgize_call_returned rt (upgrade self) _ _ _ _ Hcall).
    unfold normalized. change (V03.Wsgize.autogenerated (upgrade self))
      with (V01.Wsgize.autogenerated self). by rewrite Hsrv.
Qed.

Lemma wsgize_text_refused_witness :
  (V03.Wsgize.__call__ demo_rt (default_wsgize (PyFunc 0%nat)) ∅ st0).2
    = Raise invalid_output /\
  (V01.Wsgize.__call__ demo_rt (default_wsgize_01 (PyFunc 0%nat)) ∅ st0).2
    = Raise invalid_output.
Proof.
  split.
  - exact (f_equal snd
             (proj1 (wsgize_text_refused demo_rt ∅ st0 _ "hello")
                (default_wsgize (PyFunc 0%nat)) eq_refl eq_refl)).
  - exact (f_equal snd
             (proj2 (wsgize_text_refused demo_rt ∅ st0 _ "hello")
                (default_wsgize_01 (PyFunc 0%nat)) eq_refl eq_refl)).
Defined.

(** C4: when the wrapped callable raises, [Wsgize.__call__] ends with
    that very exception, in the state the callable left, and the wrapper
    has issued no [start_response]. *)
Theorem wsgize_error_propagates rt (self : V03.Wsgize.t) environ st st1 e :
  call_wsgi rt (V03.Wsgize.application self) environ st = (st1, Raise e) ->
  V03.Wsgize.__call__ rt self environ st = (st1, Raise e) /\
  exists evs, extends st st1 evs /\ wrapper_calls evs = [].
Proof.
  intros Hcall. split.
  - unfold V03.Wsgize.__call__; run. by rewrite Hcall.
  - exact (call_wsgi_extends _ _ _ _ _ _ Hcall).
Qed.

Lemma wsgize_error_propagates_witness :
  V03.Wsgize.__call__ demo_rt (default_wsgize (PyFunc 3%nat)) ∅ st0 =
    (State ∅ []
       [EvCallWsgi 3%nat ∅;
        EvStartResponse FromApplication (SrCall "404 Not Found" [] PyNone)],
     Raise (Exn (OtherError "RuntimeError") "boom")).
Proof.
  exact (proj1 (wsgize_error_propagates demo_rt (default_wsgize (PyFunc 3%nat))
                  ∅ st0 _ _ eq_refl)).
Defined.

(** * The arbitrary-callable adapter *)

Lemma wsgiwrap_call_dispatched rt (self : V03.Wsgize.t) environ st st1 p data :
  V03.WsgiWrap.routing_args self environ = Return p ->
  V03.WsgiWrap.dispatch rt self p.1 p.2 st = (st1, Return data) ->
  V03.WsgiWrap.__call__ rt self environ st =
    (emit [EvStartResponse FromWrapper (V03.Wsgize.autogenerated self)] st1,
     wrapped (server rt (trace st1) (V03.Wsgize.autogenerated self)) data).
Proof.
  intros Hargs Hdisp.
  unfold V03.WsgiWrap.__call__; run. rewrite Hargs, Hdisp.
  unfold call_start_response, wrapped.
  destruct (server rt (trace st1) _); [done |].
  destruct data as [d|]; [| done].
  simpl. by destruct (is_basestring d).
Qed.

Lemma wsgiwrap_01_call_dispatched rt (self : V01.Wsgize.t) environ st st1 data :
  V01.WsgiWrap.dispatch rt self
    (default (PyBool false) (environ !! V01.Wsgize.argkey self))
    (default (PyBool false) (environ !! V01.Wsgize.kwargkey self)) st
    = (st1, Return data) ->
  V01.WsgiWrap.__call__ rt self environ st =
    (emit [EvStartResponse FromWrapper (V01.Wsgize.autogenerated self)] st1,
     wrapped (server rt (trace st1) (V01.Wsgize.autogenerated self)) data).
Proof.
  intros Hdisp.
  unfold V01.WsgiWrap.__call__; run. rewrite Hdisp.
  unfold call_start_response, wrapped.
  destruct (server rt (trace st1) _); [done |].
  destruct data as [d|]; [| done].
  simpl. by destruct (is_basestring d).
Qed.

(** A combined pair under the routing key wins over the separate keys,
    whatever they hold. *)
Lemma routing_args_combined (self : V03.Wsgize.t) (environ : env) args kw :
  environ !! V03.Wsgize.key self = Some (PyTuple [args; kw]) ->
  V03.WsgiWrap.routing_args self environ = Return (args, kw).
Proof. intros H. unfold V03.WsgiWrap.routing_args. by rewrite H. Qed.

(** With [wsgiorg.routing_args = ((1, 2), {'x': 3})] the call is
    [wrapped(1, 2, x=3)], also when the separate keys are present. *)
Lemma wsgiwrap_combined_call :
  V03.WsgiWrap.__call__ demo_rt (default_wsgize (PyFunc 1%nat)) both_env st0 =
    (State ∅ []
       [EvCallPlain 1%nat [PyInt 1; PyInt 2] [("x", PyInt 3)];
        EvStartResponse FromWrapper
          (SrCall "200 OK" [("Content-type", "text/html")] PyNone)],
     Return (PyTuple [PyInt 1; PyInt 2])).
Proof. reflexivity. Qed.

(** The [except ValueError] branch is taken exactly when the value under
    the routing key iterates to a number of items other than two; it
    then reads the separate keys with their empty defaults. *)
Lemma routing_args_fallback (self : V03.Wsgize.t) (environ : env) v msg :
  environ !! V03.Wsgize.key self = Some v ->
  unpack_pair v = Raise (Exn ValueError msg) ->
  V03.WsgiWrap.routing_args self environ =
    Return (default (PyTuple []) (environ !! V03.Wsgize.argkey self),
            default (PyDict []) (environ !! V03.Wsgize.kwargkey self)).
Proof.
  intros H Hv. unfold V03.WsgiWrap.routing_args. by rewrite H; simpl; rewrite Hv.
Qed.

(** C5, on the code: when the routing key is absent from the
    environment, [environ.get(self.key)] is [None], unpacking it raises
    [TypeError], [except ValueError] does not catch it, and the call
    ends there: the separate keys are never read and the wrapped
    callable is never invoked. *)
Theorem wsgiwrap_absent_routing_key rt (self : V03.Wsgize.t) (environ : env) st :
  environ !! V03.Wsgize.key self = None ->
  V03.WsgiWrap.routing_args self environ = Raise none_not_iterable /\
  V03.WsgiWrap.__call__ rt self environ st = (st, Raise none_not_iterable).
Proof.
  intros H.
  assert (Hr : V03.WsgiWrap.routing_args self environ = Raise none_not_iterable).
  { unfold V03.WsgiWrap.routing_args. by rewrite H. }
  split; [exact Hr |].
  unfold V03.WsgiWrap.__call__; run. by rewrite Hr.
Qed.

Lemma wsgiwrap_absent_routing_key_witness :
  V03.WsgiWrap.__call__ demo_rt (default_wsgize (PyFunc 1%nat)) args_env st0
    = (st0, Raise none_not_iterable).
Proof.
  exact (proj2 (wsgiwrap_absent_routing_key demo_rt
                  (default_wsgize (PyFunc 1%nat)) args_env st0 eq_refl)).
Defined.

(** X12: version 0.1 with no usable argument: the callable is not
    invoked, [start_response] is, and reading [data] then fails with
    [UnboundLocalError]. *)
Lemma wsgiwrap_01_no_arguments rt (self : V01.Wsgize.t) (environ : env) st :
  truthy (default (PyBool false) (environ !! V01.Wsgize.argkey self)) = false ->
  truthy (default (PyBool false) (environ !! V01.Wsgize.kwargkey self)) = false ->
  server rt (trace st) (V01.Wsgize.autogenerated self) = None ->
  V01.WsgiWrap.__call__ rt self environ st =
    (emit [EvStartResponse FromWrapper (V01.Wsgize.autogenerated self)] st,
     Raise data_unbound).
Proof.
  intros Ha Hk Hsrv.
  rewrite (wsgiwrap_01_call_dispatched rt self environ st st None).
  - unfold wrapped. by rewrite Hsrv.
  - unfold V01.WsgiWrap.dispatch. by rewrite Ha, Hk.
Qed.

(** X13: version 0.3 once the [try] block has bound two falsy values:
    the callable is not invoked, [start_response] is, and reading
    [data] then fails with [UnboundLocalError]. *)
Lemma wsgiwrap_03_no_arguments rt (self : V03.Wsgize.t) (environ : env) st p :
  V03.WsgiWrap.routing_args self environ = Return p ->
  truthy p.1 = false ->
  truthy p.2 = false ->
  server rt (trace st) (V03.Wsgize.autogenerated self) = None ->
  V03.WsgiWrap.__call__ rt self environ st =
    (emit [EvStartResponse FromWrapper (V03.Wsgize.autogenerated self)] st,
     Raise data_unbound).
Proof.
  intros Hp Ha Hk Hsrv.
  rewrite (wsgiwrap_call_dispatched rt self environ st st p None Hp).
  - unfold wrapped. by rewrite Hsrv.
  - unfold V03.WsgiWrap.dispatch. by rewrite Ha, Hk.
Qed.

(** C6, on the code: in version 0.3, when every configured argument key
    is absent from the environment, the adapter does not reach the
    unbound [data]: it stops at the unpacking of [None] with a
    [TypeError], in an unchanged state, having invoked neither the
    wrapped callable nor [start_response]. *)
Theorem wsgiwrap_no_argument_keys rt (self : V03.Wsgize.t) (environ : env) st :
  environ !! V03.Wsgize.key self = None ->
  environ !! V03.Wsgize.argkey self = None ->
  environ !! V03.Wsgize.kwargkey self = None ->
  V03.WsgiWrap.__call__ rt self environ st = (st, Raise none_not_iterable) /\
  exn_class_of none_not_iterable = TypeError /\
  none_not_iterable <> data_unbound.
Proof.
  intros Hkey _ _.
  split; [| split; [reflexivity | discriminate]].
  unfold V03.WsgiWrap.__call__, V03.WsgiWrap.routing_args; run.
  by rewrite Hkey.
Qed.

Lemma wsgiwrap_no_argument_keys_witness :
  V03.WsgiWrap.__call__ demo_rt (default_wsgize (PyFunc 1%nat)) ∅ st0
    = (st0, Raise none_not_iterable).
Proof.
  exact (proj1 (wsgiwrap_no_argument_keys demo_rt
                  (default_wsgize (PyFunc 1%nat)) ∅ st0
                  eq_refl eq_refl eq_refl)).
Defined.

(** C7, on the code: in both versions a result of the wrapped callable
    that is neither text nor iterable is returned by [WsgiWrap.__call__]
    as it is, after the one autogenerated [start_response], where
    [Wsgize.__call__] raises [TypeError] for the same result; the
    adapter has no iterability test. *)
Theorem wsgiwrap_result_not_checked rt environ st st1 (d : value) :
  is_basestring d = false ->
  hasattr_iter d = false ->
  (forall (self : V03.Wsgize.t) p,
      V03.WsgiWrap.routing_args self environ = Return p ->
      V03.WsgiWrap.dispatch rt self p.1 p.2 st = (st1, Return (Some d)) ->
      server rt (trace st1) (V03.Wsgize.autogenerated self) = None ->
      V03.WsgiWrap.__call__ rt self environ st =
        (emit [EvStartResponse FromWrapper (V03.Wsgize.autogenerated self)] st1,
         Return d)) /\
  (forall self : V01.Wsgize.t,
      V01.WsgiWrap.dispatch rt self
        (default (PyBool false) (environ !! V01.Wsgize.argkey self))
        (default (PyBool false) (environ !! V01.Wsgize.kwargkey self)) st
        = (st1, Return (Some d)) ->
      server rt (trace st1) (V01.Wsgize.autogenerated self) = None ->
      V01.WsgiWrap.__call__ rt self environ st =
        (emit [EvStartResponse FromWrapper (V01.Wsgize.autogenerated self)] st1,
         Return d)) /\
  normalized None d = Raise invalid_output.
Proof.
  intros Htext Hiter. split; [| split].
  - intros self p Hp Hdisp Hsrv.
    rewrite (wsgiwrap_call_dispatched rt self environ st st1 p (Some d) Hp Hdisp).
    unfold wrapped. by rewrite Hsrv, Htext.
  - intros self Hdisp Hsrv.
    rewrite (wsgiwrap_01_call_dispatched rt self environ st st1 (Some d) Hdisp).
    unfold wrapped. by rewrite Hsrv, Htext.
  - unfold normalized. by rewrite Hiter.
Qed.

Lemma wsgiwrap_result_not_checked_witness :
  V03.WsgiWrap.__call__ demo_rt (default_wsgize (PyFunc 2%nat)) one_arg_env st0
    = (State ∅ []
         [EvCallPlain 2%nat [PyInt 1] [];
          EvStartResponse FromWrapper
            (SrCall "200 OK" [("Content-type", "text/html")] PyNone)],
       Return (PyInt 5)) /\
  V01.WsgiWrap.__call__ demo_rt (default_wsgize_01 (PyFunc 2%nat)) args_env st0
    = (State ∅ []
         [EvCallPlain 2%nat [PyInt 1; PyInt 2] [];
          EvStartResponse FromWrapper
            (SrCall "200 OK" [("Content-type", "text/html")] PyNone)],
       Return (PyInt 5)).
Proof.
  split.
  - exact (proj1 (wsgiwrap_result_not_checked demo_rt one_arg_env st0 _ (PyInt 5)
                    eq_refl eq_refl)
             (default_wsgize (PyFunc 2%nat)) (PyTuple [PyInt 1], PyDict [])
             eq_refl eq_refl eq_refl).
  - exact (proj1 (proj2 (wsgiwrap_result_not_checked demo_rt args_env st0 _
                           (PyInt 5) eq_refl eq_refl))
             (default_wsgize_01 (PyFunc 2%nat)) eq_refl eq_refl).
Defined.

(** * The secondary dispatcher *)

Lemma deref_store l t st : deref (store l t st) l = t.
Proof. unfold deref, store; simpl. by rewrite lookup_insert_eq. Qed.

Lemma getcallback_state rt (self : V03.WsgiRoute.t) callback st st' o :
  V03.WsgiRoute.getcallback rt self callback st = (st', o) -> st' = st.
Proof.
  unfold V03.WsgiRoute.getcallback, V03.WsgiRoute.import_attr; run.
  destruct (V03.WsgiRoute.getmodfunc self callback) as [p|e]; [| by intros [= <- _]].
  destruct (importer rt (sys_path st) p.1) as [m|e]; simpl.
  - destruct (m !! p.2); [by intros [= <- _] |]. simpl. by intros [= <- _].
  - destruct (exn_class_of e); by intros [= <- _].
Qed.

(** [lookup] reads the store and leaves it as it is. *)
Lemma lookup_state rt (self : V03.WsgiRoute.t) kw st st' o :
  V03.WsgiRoute.lookup rt self kw st = (st', o) -> st' = st.
Proof.
  unfold V03.WsgiRoute.lookup; run.
  destruct (getitem (deref st (V03.WsgiRoute.table self)) kw) as [cb|e];
    [| by intros [= <- _]].
  destruct (hasattr_call cb); [by intros [= <- _] |].
  apply getcallback_state.
Qed.

(** A dotted-path entry is imported and its attribute fetched. *)
Lemma lookup_dotted_path :
  V03.WsgiRoute.lookup demo_rt greet_route (PyStr "lazy") greet_state
    = (greet_state, Return (PyFunc 1%nat)).
Proof. reflexivity. Qed.

(** C8: [WsgiRoute.__call__] reads [environ[self.key]] and fails with
    [KeyError] when the key is absent; [lookup] fetches [table[kw]] and
    fails with [KeyError] when the dispatch key is not in the table.  An
    entry that exposes [__call__] is the handler, nothing being
    imported.  Any other entry is resolved as a dotted path: it is split
    by [getmodfunc], the module part is imported under the current
    [sys.path], and the handler is that module's attribute; a failure
    of the split ends the request before anything is imported or
    invoked.  The handler is then invoked once with the same
    environment: the request shows that invocation and the
    [start_response] calls the handler made, none issued by the
    dispatcher, and ends with the handler's own outcome. *)
Theorem wsgiroute_dispatch rt (self : V03.WsgiRoute.t) (environ : env) st :
  (environ !! V03.WsgiRoute.key self = None ->
   exists msg,
     V03.WsgiRoute.__call__ rt self environ st = (st, Raise (Exn KeyError msg))) /\
  (forall k : string,
     environ !! V03.WsgiRoute.key self = Some (PyStr k) ->
     deref st (V03.WsgiRoute.table self) !! k = None ->
     exists msg,
       V03.WsgiRoute.lookup rt self (PyStr k) st = (st, Raise (Exn KeyError msg)) /\
       V03.WsgiRoute.__call__ rt self environ st = (st, Raise (Exn KeyError msg))) /\
  (forall (k : string) (v : value),
     environ !! V03.WsgiRoute.key self = Some (PyStr k) ->
     deref st (V03.WsgiRoute.table self) !! k = Some v ->
     hasattr_call v = true ->
     V03.WsgiRoute.lookup rt self (PyStr k) st = (st, Return v) /\
     exists f : fid,
       v = PyFunc f /\
       V03.WsgiRoute.__call__ rt self environ st =
         (emit (EvCallWsgi f environ
                  :: (EvStartResponse FromApplication
                        <$> (wsgi_app rt f (trace st) environ).1)) st,
          (wsgi_app rt f (trace st) environ).2)) /\
  (forall (k : string) (v : value) (mod_name func_name : string)
          (m : gmap string value) (callback : value),
     environ !! V03.WsgiRoute.key self = Some (PyStr k) ->
     deref st (V03.WsgiRoute.table self) !! k = Some v ->
     hasattr_call v = false ->
     V03.WsgiRoute.getmodfunc self v = Return (mod_name, func_name) ->
     importer rt (sys_path st) mod_name = Return m ->
     m !! func_name = Some callback ->
     V03.WsgiRoute.lookup rt self (PyStr k) st = (st, Return callback) /\
     (forall f : fid,
        callee callback = Some f ->
        V03.WsgiRoute.__call__ rt self environ st =
          (emit (EvCallWsgi f environ
                   :: (EvStartResponse FromApplication
                         <$> (wsgi_app rt f (trace st) environ).1)) st,
           (wsgi_app rt f (trace st) environ).2))) /\
  (forall (k : string) (v : value) (e : exn),
     environ !! V03.WsgiRoute.key self = Some (PyStr k) ->
     deref st (V03.WsgiRoute.table self) !! k = Some v ->
     hasattr_call v = false ->
     V03.WsgiRoute.getmodfunc self v = Raise e ->
     V03.WsgiRoute.__call__ rt self environ st = (st, Raise e)) /\
  (forall (f : fid) (calls : list sr_call),
     wrapper_calls (EvCallWsgi f environ
                      :: (EvStartResponse FromApplication <$> calls)) = []).
Proof.
  split; [| split; [| split; [| split; [| split]]]].
  - intros Hkey. eexists.
    unfold V03.WsgiRoute.__call__, getitem; run. by rewrite Hkey.
  - intros k Hkey Hk. eexists.
    assert (V03.WsgiRoute.lookup rt self (PyStr k) st
            = (st, Raise (Exn KeyError (repr_key (PyStr k))))) as Hl.
    { unfold V03.WsgiRoute.lookup, getitem; run. by rewrite Hk. }
    split; [exact Hl |].
    unfold V03.WsgiRoute.__call__, getitem; run. rewrite Hkey.
    by rewrite Hl.
  - intros k v Hkey Hk Hcall.
    assert (V03.WsgiRoute.lookup rt self (PyStr k) st = (st, Return v)) as Hl.
    { unfold V03.WsgiRoute.lookup, getitem; run. by rewrite Hk, Hcall. }
    split; [exact Hl |].
    destruct v as [| | | | | | | f | | |]; try discriminate Hcall.
    exists f. split; [reflexivity |].
    unfold V03.WsgiRoute.__call__, getitem; run. rewrite Hkey.
    by rewrite Hl.
  - intros k v mod_name func_name m callback Hkey Hk Hcall Hsplit Himp Hattr.
    assert (V03.WsgiRoute.lookup rt self (PyStr k) st = (st, Return callback))
      as Hl.
    { unfold V03.WsgiRoute.lookup, getitem; run. rewrite Hk, Hcall.
      unfold V03.WsgiRoute.getcallback, V03.WsgiRoute.import_attr; run.
      rewrite Hsplit. simpl. by rewrite Himp, Hattr. }
    split; [exact Hl |].
    intros f Hf.
    unfold V03.WsgiRoute.__call__, getitem; run. rewrite Hkey.
    rewrite Hl. unfold call_wsgi.
    destruct callback; try discriminate Hf; injection Hf as ->; reflexivity.
  - intros k v e Hkey Hk Hcall Hsplit.
    unfold V03.WsgiRoute.__call__, getitem; run. rewrite Hkey.
    unfold V03.WsgiRoute.lookup, getitem; run. rewrite Hk, Hcall.
    unfold V03.WsgiRoute.getcallback; run. by rewrite Hsplit.
  - intros f calls. simpl. apply wrapper_calls_from_application.
Qed.

Lemma wsgiroute_dispatch_witness :
  (exists msg,
     V03.WsgiRoute.__call__ demo_rt greet_route ∅ greet_state
       = (greet_state, Raise (Exn KeyError msg))) /\
  (exists msg,
     V03.WsgiRoute.__call__ demo_rt greet_route missing_env greet_state
       = (greet_state, Raise (Exn KeyError msg))) /\
  (exists f : fid,
     PyFunc 1%nat = PyFunc f /\
     V03.WsgiRoute.__call__ demo_rt greet_route greet_env greet_state
       = (emit (EvCallWsgi f greet_env
                  :: (EvStartResponse FromApplication
                        <$> (wsgi_app demo_rt f (trace greet_state) greet_env).1))
            greet_state,
          (wsgi_app demo_rt f (trace greet_state) greet_env).2)) /\
  V03.WsgiRoute.lookup demo_rt greet_route (PyStr "lazy") greet_state
    = (greet_state, Return (PyFunc 1%nat)) /\
  V03.WsgiRoute.__call__ demo_rt greet_route lazy_env greet_state
    = (State (<[ 1%nat := greet_table ]> ∅) [] [EvCallWsgi 1%nat lazy_env],
       Return (PyList [PyStr "a"; PyStr "b"; PyStr "c"])) /\
  V03.WsgiRoute.__call__ demo_rt greet_route nodot_env plain_state
    = (plain_state, Raise (Exn ValueError "substring not found")).
Proof.
  pose proof (wsgiroute_dispatch demo_rt greet_route) as H.
  split; [| split; [| split; [| split; [| split]]]].
  - exact (proj1 (H ∅ greet_state) eq_refl).
  - destruct (proj1 (proj2 (H missing_env greet_state)) "missing" eq_refl eq_refl)
      as [msg [_ Hc]].
    exists msg. exact Hc.
  - exact (proj2 (proj1 (proj2 (proj2 (H greet_env greet_state)))
                    "greet" (PyFunc 1%nat) eq_refl eq_refl eq_refl)).
  - exact (proj1 (proj1 (proj2 (proj2 (proj2 (H lazy_env greet_state))))
                    "lazy" (PyStr "mypkg.handlers.greet")
                    "mypkg.handlers" "greet" _ (PyFunc 1%nat)
                    eq_refl eq_refl eq_refl eq_refl eq_refl eq_refl)).
  - exact (proj2 (proj1 (proj2 (proj2 (proj2 (H lazy_env greet_state))))
                    "lazy" (PyStr "mypkg.handlers.greet")
                    "mypkg.handlers" "greet" _ (PyFunc 1%nat)
                    eq_refl eq_refl eq_refl eq_refl eq_refl eq_refl)
             1%nat eq_refl).
  - exact (proj1 (proj2 (proj2 (proj2 (proj2 (H nodot_env plain_state)))))
             "plain" (PyStr "greet") _ eq_refl eq_refl eq_refl eq_refl).
Defined.

(** * Registration *)

Lemma route_state name application st :
  V03.route name application st =
    (store V03.routes (<[name := application]> (deref st V03.routes)) st,
     Return application).
Proof. reflexivity. Qed.

Lemma registered_lookup name application st :
  deref (registered name application st) V03.routes !! name = Some application.
Proof.
  unfold registered, exec. rewrite route_state. simpl.
  rewrite deref_store. apply lookup_insert_eq.
Qed.

(** C9: [route(name)] applied to a callable stores it under [name] in
    the shared table and returns the callable itself; [register]
    overwrites without any check, so after a second registration under
    the same name the table and the dispatcher's [lookup] give the
    second handler only; a [WsgiRoute] built without a table holds the
    shared table itself, so a registration made after its construction
    is seen by its next [lookup]. *)
Theorem route_registers_shared rt (name : string) (first second : value)
    (kw : route_kw) st :
  (V03.route name first st =
     (exec (V03.register name first) st, Return first) /\
   deref (exec (V03.register name first) st) V03.routes
     = <[name := first]> (deref st V03.routes)) /\
  (deref (exec (V03.register name second) (exec (V03.register name first) st))
         V03.routes !! name = Some second) /\
  (forall self st',
     V03.WsgiRoute.__init__ None kw st = (st', Return self) ->
     V03.WsgiRoute.table self = V03.routes /\
     deref (exec (V03.register name first) st') (V03.WsgiRoute.table self) !! name
       = Some first /\
     (hasattr_call first = true ->
      V03.WsgiRoute.lookup rt self (PyStr name)
        (exec (V03.register name first) st')
        = (exec (V03.register name first) st', Return first)) /\
     (hasattr_call second = true ->
      V03.WsgiRoute.lookup rt self (PyStr name)
        (exec (V03.register name second) (exec (V03.register name first) st'))
        = (exec (V03.register name second) (exec (V03.register name first) st'),
           Return second))).
Proof.
  assert (Hreg : forall app s,
             deref (exec (V03.register name app) s) V03.routes !! name = Some app).
  { intros app s. unfold exec, V03.register; simpl.
    rewrite deref_store. apply lookup_insert_eq. }
  split; [| split].
  - split; [reflexivity |].
    unfold exec, V03.register; simpl. apply deref_store.
  - apply Hreg.
  - intros self st' Hinit.
    assert (V03.WsgiRoute.table self = V03.routes) as Htab.
    { unfold V03.WsgiRoute.__init__ in Hinit. by injection Hinit as _ <-. }
    split; [exact Htab |].
    rewrite Htab. split; [apply Hreg |]. split.
    + intros Hcall. unfold V03.WsgiRoute.lookup, getitem; run.
      by rewrite Htab, Hreg, Hcall.
    + intros Hcall. unfold V03.WsgiRoute.lookup, getitem; run.
      by rewrite Htab, Hreg, Hcall.
Qed.

Lemma route_registers_shared_witness :
  V03.WsgiRoute.__init__ None no_route_kw st0 = (st0, Return shared_route) /\
  V03.WsgiRoute.lookup demo_rt shared_route (PyStr "greet")
    (exec (V03.register "greet" (PyFunc 2%nat))
       (exec (V03.register "greet" (PyFunc 1%nat)) st0))
    = (exec (V03.register "greet" (PyFunc 2%nat))
         (exec (V03.register "greet" (PyFunc 1%nat)) st0),
       Return (PyFunc 2%nat)).
Proof.
  split; [reflexivity |].
  exact (proj2 (proj2 (proj2
           (proj2 (proj2 (route_registers_shared demo_rt "greet"
                            (PyFunc 1%nat) (PyFunc 2%nat) no_route_kw st0))
              shared_route st0 eq_refl))) eq_refl).
Defined.

(** * The two versions of [lookup] *)

Lemma get_mod_func_same (d1 : V01.WsgiRoute.t) (d3 : V03.WsgiRoute.t) callback :
  V01.WsgiRoute.modpath d1 = V03.WsgiRoute.modpath d3 ->
  V01.WsgiRoute.get_mod_func d1 callback = V03.WsgiRoute.getmodfunc d3 callback.
Proof.
  intros H. unfold V01.WsgiRoute.get_mod_func, V03.WsgiRoute.getmodfunc.
  by rewrite H.
Qed.





(** The restriction on the entries is needed: on an entry that is
    neither a callable nor a string the two versions part. *)
Lemma lookup_versions_differ :
  let st := State (<[ 1%nat := <[ "five" := PyInt 5 ]> ∅ ]> ∅) [] [] in
  V01.WsgiRoute.lookup demo_rt greet_route_01 (PyStr "five") st
    = (st, Return (PyInt 5)) /\
  V03.WsgiRoute.lookup demo_rt greet_route (PyStr "five") st
    = (st, Raise (Exn AttributeError "'int' object has no attribute 'rindex'")).
Proof. split; reflexivity. Qed.

(** * More on the wrapper: construction, the response callback, results *)

Lemma start_responses_app evs1 evs2 :
  start_responses (evs1 ++ evs2) = start_responses evs1 ++ start_responses evs2.
Proof. unfold start_responses. apply omap_app. Qed.

Lemma start_responses_from_application (calls : list sr_call) :
  start_responses (EvStartResponse FromApplication <$> calls)
    = pair FromApplication <$> calls.
Proof. induction calls as [|c calls IH]; [done |]. simpl. f_equal. exact IH. Qed.

Lemma header_items_lookup (m : gmap string string) (l : list (string * string)) :
  (forall k v, (k, v) ∈ l -> m !! k = Some v) ->
  omap (fun key => pair key <$> m !! key) (l.*1) = l.
Proof.
  induction l as [|[k v] l IH]; intros H; [done |].
  simpl. rewrite (H k v) by apply list_elem_of_here. simpl.
  f_equal. apply IH. intros k' v' Hin. apply H. by apply list_elem_of_further.
Qed.

Lemma header_items_dict (hs : list (string * string)) :
  NoDup (hs.*1) -> header_items hs = hs.
Proof.
  intros Hnd. unfold header_items. apply header_items_lookup.
  intros k v Hin. by apply elem_of_list_to_map_1.
Qed.

(** X1: for a known status code and a [headers] dictionary (distinct
    keys), [Wsgize.__init__] builds, in both versions, the wrapper whose
    status line is "<code> <phrase>" and whose header list is the
    [Content-type] pair (the [mime] keyword, [text/html] by default)
    followed by the dictionary's items in its iteration order; nothing
    is merged or dropped, so a [Content-type] key among the extra
    headers gives a second [Content-type] entry. *)
Theorem wsgize_init_headers (app : value) (kw : wsgize_kw)
    (phrase explanation : string) :
  bhrh_responses !! default 200 (kw_response kw) = Some (phrase, explanation) ->
  NoDup ((default [] (kw_headers kw)).*1) ->
  exists (w : V03.Wsgize.t) (w1 : V01.Wsgize.t),
    V03.Wsgize.__init__ app kw = Return w /\
    V01.Wsgize.__init__ app kw = Return w1 /\
    V03.Wsgize.start_response w
      = pretty (default 200 (kw_response kw)) +:+ " " +:+ phrase /\
    V03.Wsgize.headers w
      = ("Content-type", default "text/html" (kw_mime kw))
          :: default [] (kw_headers kw) /\
    V01.Wsgize.start_response w1 = V03.Wsgize.start_response w /\
    V01.Wsgize.headers w1 = V03.Wsgize.headers w.
Proof.
  intros Hc Hnd.
  unfold V03.Wsgize.__init__, V01.Wsgize.__init__, V03.response, V01.response.
  rewrite Hc. simpl. rewrite (header_items_dict _ Hnd).
  eexists. eexists. repeat split.
Qed.

Lemma wsgize_init_headers_witness :
  exists w : V03.Wsgize.t,
    V03.Wsgize.__init__ (PyFunc 1%nat) rich_kw = Return w /\
    V03.Wsgize.start_response w = "404 Not Found" /\
    V03.Wsgize.headers w
      = [("Content-type", "text/plain"); ("X-Frame", "deny");
         ("Content-type", "text/css")].
Proof.
  destruct (wsgize_init_headers (PyFunc 1%nat) rich_kw "Not Found"
              "Nothing matches the given URI" eq_refl)
    as (w & w1 & H1 & _ & H5 & H6 & _).
  { simpl. apply NoDup_cons. split; [| apply NoDup_singleton].
    apply not_elem_of_cons. split; [discriminate | apply not_elem_of_nil]. }
  exists w. split; [exact H1 |]. split; [exact H5 | exact H6].
Defined.

(** X2: with a status code outside the table, no wrapper is built: the
    constructor, and so the decorators [wsgize] and [wsgiwrap], raise
    the table's [KeyError] when they are applied, in both versions. *)
Theorem wsgize_init_unknown_code (app : value) (kw : wsgize_kw) :
  bhrh_responses !! default 200 (kw_response kw) = None ->
  exists msg,
    V03.Wsgize.__init__ app kw = Raise (Exn KeyError msg) /\
    V03.wsgize kw app = Raise (Exn KeyError msg) /\
    V03.wsgiwrap kw app = Raise (Exn KeyError msg) /\
    V01.Wsgize.__init__ app kw = Raise (Exn KeyError msg) /\
    V01.wsgize kw app = Raise (Exn KeyError msg) /\
    V01.wsgiwrap kw app = Raise (Exn KeyError msg).
Proof.
  intros Hc. eexists.
  unfold V03.wsgize, V03.wsgiwrap, V01.wsgize, V01.wsgiwrap.
  unfold V03.Wsgize.__init__, V01.Wsgize.__init__, V03.response, V01.response.
  rewrite Hc. repeat split.
Qed.

Lemma wsgize_init_unknown_code_witness :
  exists msg,
    V03.wsgize (WsgizeKw (Some 999) None None None None None None) (PyFunc 1%nat)
      = Raise (Exn KeyError msg).
Proof.
  destruct (wsgize_init_unknown_code (PyFunc 1%nat)
              (WsgizeKw (Some 999) None None None None None None) eq_refl)
    as (msg & _ & H & _).
  exists msg. exact H.
Defined.

(** X3: a wrapped callable that follows the gateway convention and
    starts the response itself is not detected: after it returns,
    [Wsgize.__call__] calls [start_response] once more, so the request
    sees the callable's own calls followed by the wrapper's, one more
    than the callable made (both versions). *)
Theorem wsgize_adds_start_response rt (f : fid) environ st calls data :
  wsgi_app rt f (trace st) environ = (calls, Return data) ->
  (forall self : V03.Wsgize.t,
      V03.Wsgize.application self = PyFunc f ->
      exists evs,
        trace (exec (V03.Wsgize.__call__ rt self environ) st) = trace st ++ evs /\
        start_responses evs
          = (pair FromApplication <$> calls)
              ++ [(FromWrapper, V03.Wsgize.autogenerated self)] /\
        length (start_responses evs) = S (length calls)) /\
  (forall self : V01.Wsgize.t,
      V01.Wsgize.application self = PyFunc f ->
      exists evs,
        trace (exec (V01.Wsgize.__call__ rt self environ) st) = trace st ++ evs /\
        start_responses evs
          = (pair FromApplication <$> calls)
              ++ [(FromWrapper, V01.Wsgize.autogenerated self)] /\
        length (start_responses evs) = S (length calls)).
Proof.
  intros Happ.
  assert (forall self : V03.Wsgize.t,
             V03.Wsgize.application self = PyFunc f ->
             exists evs,
               trace (exec (V03.Wsgize.__call__ rt self environ) st)
                 = trace st ++ evs /\
               start_responses evs
                 = (pair FromApplication <$> calls)
                     ++ [(FromWrapper, V03.Wsgize.autogenerated self)] /\
               length (start_responses evs) = S (length calls)) as H3.
  { intros self Hf.
    exists (EvCallWsgi f environ :: (EvStartResponse FromApplication <$> calls)
              ++ [EvStartResponse FromWrapper (V03.Wsgize.autogenerated self)]).
    assert (start_responses
              (EvCallWsgi f environ :: (EvStartResponse FromApplication <$> calls)
                 ++ [EvStartResponse FromWrapper (V03.Wsgize.autogenerated self)])
            = (pair FromApplication <$> calls)
                ++ [(FromWrapper, V03.Wsgize.autogenerated self)]) as Hsr.
    { change (start_responses (?e :: ?l)) with (start_responses l).
      rewrite start_responses_app, start_responses_from_application.
      reflexivity. }
    split; [| split; [exact Hsr |]].
    - unfold exec.
      rewrite (wsgize_call_returned rt self environ st
                 (emit (EvCallWsgi f environ
                          :: (EvStartResponse FromApplication <$> calls)) st) data).
      + simpl. by rewrite <- app_assoc.
      + unfold call_wsgi. by rewrite Hf, Happ.
    - rewrite Hsr, length_app, length_fmap. simpl. lia. }
  split; [exact H3 |].
  intros self Hf. unfold exec. rewrite wsgize_call_01_03.
  exact (H3 (upgrade self) Hf).
Qed.

Lemma wsgize_adds_start_response_witness :
  exists evs,
    trace (exec (V03.Wsgize.__call__ strict_rt (default_wsgize (PyFunc 0%nat)) ∅)
             st0) = trace st0 ++ evs /\
    start_responses evs
      = [(FromApplication, SrCall "200 OK" [] PyNone);
         (FromWrapper, SrCall "200 OK" [("Content-type", "text/html")] PyNone)].
Proof.
  destruct (proj1 (wsgize_adds_start_response strict_rt 0%nat ∅ st0 _ _ eq_refl)
              (default_wsgize (PyFunc 0%nat)) eq_refl) as (evs & H1 & H2 & _).
  exists evs. split; [exact H1 | exact H2].
Defined.

(** X4: the wrappers do not guard their [start_response] call: when
    the server's callback raises (as it may on a second call for one
    request), that exception ends the request and the data returned by
    the wrapped callable is dropped, in [Wsgize] and in [WsgiWrap]. *)
Theorem wrapper_start_response_raises rt (self : V03.Wsgize.t) environ st st1 e :
  server rt (trace st1) (V03.Wsgize.autogenerated self) = Some e ->
  (forall data,
      call_wsgi rt (V03.Wsgize.application self) environ st
        = (st1, Return data) ->
      V03.Wsgize.__call__ rt self environ st =
        (emit [EvStartResponse FromWrapper (V03.Wsgize.autogenerated self)] st1,
         Raise e)) /\
  (forall p data,
      V03.WsgiWrap.routing_args self environ = Return p ->
      V03.WsgiWrap.dispatch rt self p.1 p.2 st = (st1, Return data) ->
      V03.WsgiWrap.__call__ rt self environ st =
        (emit [EvStartResponse FromWrapper (V03.Wsgize.autogenerated self)] st1,
         Raise e)).
Proof.
  intros Hsrv. split.
  - intros data Hcall.
    rewrite (wsgize_call_returned _ _ _ _ _ _ Hcall).
    unfold normalized. by rewrite Hsrv.
  - intros p data Hp Hdisp.
    rewrite (wsgiwrap_call_dispatched rt self environ st st1 p data Hp Hdisp).
    unfold wrapped. by rewrite Hsrv.
Qed.

Lemma wrapper_start_response_raises_witness :
  (V03.Wsgize.__call__ strict_rt (default_wsgize (PyFunc 0%nat)) ∅ st0).2
    = Raise (Exn (OtherError "AssertionError") "Headers already set!").
Proof.
  exact (f_equal snd
           (proj1 (wrapper_start_response_raises strict_rt
                     (default_wsgize (PyFunc 0%nat)) ∅ st0
                     (State ∅ []
                        [EvCallWsgi 0%nat ∅;
                         EvStartResponse FromApplication
                           (SrCall "200 OK" [] PyNone)])
                     _ eq_refl)
              _ eq_refl)).
Defined.

(** X5: for a result that is not text, [Wsgize.__call__] decides on
    [__iter__] alone, in both versions: a result that has it (list,
    tuple, dictionary, generator) is returned as the very same object
    after the one [start_response]; a result that lacks it ([None], a
    number, a callable, a plain instance) ends in the [TypeError] "Data
    returned by callable must be iterable or string.", raised only
    after [start_response] has been called. *)
Theorem wsgize_result_by_iter rt environ st st1 (data : value) :
  is_basestring data = false ->
  (forall self : V03.Wsgize.t,
      call_wsgi rt (V03.Wsgize.application self) environ st
        = (st1, Return data) ->
      server rt (trace st1) (V03.Wsgize.autogenerated self) = None ->
      V03.Wsgize.__call__ rt self environ st =
        (emit [EvStartResponse FromWrapper (V03.Wsgize.autogenerated self)] st1,
         if hasattr_iter data then Return data else Raise invalid_output)) /\
  (forall self : V01.Wsgize.t,
      call_wsgi rt (V01.Wsgize.application self) environ st
        = (st1, Return data) ->
      server rt (trace st1) (V01.Wsgize.autogenerated self) = None ->
      V01.Wsgize.__call__ rt self environ st =
        (emit [EvStartResponse FromWrapper (V01.Wsgize.autogenerated self)] st1,
         if hasattr_iter data then Return data else Raise invalid_output)).
Proof.
  intros Htext. split.
  - intros self Hcall Hsrv.
    rewrite (wsgize_call_returned _ _ _ _ _ _ Hcall).
    unfold normalized. by rewrite Hsrv, Htext.
  - intros self Hcall Hsrv. rewrite wsgize_call_01_03.
    rewrite (wsgize_call_returned rt (upgrade self) _ _ _ _ Hcall).
    unfold normalized.
    change (V03.Wsgize.autogenerated (upgrade self))
      with (V01.Wsgize.autogenerated self).
    by rewrite Hsrv, Htext.
Qed.

Lemma wsgize_result_by_iter_witness :
  (V03.Wsgize.__call__ demo_rt (default_wsgize (PyFunc 1%nat)) ∅ st0).2
    = Return (PyList [PyStr "a"; PyStr "b"; PyStr "c"]) /\
  (V01.Wsgize.__call__ demo_rt (default_wsgize_01 (PyFunc 2%nat)) ∅ st0).2
    = Raise invalid_output.
Proof.
  split.
  - exact (f_equal snd
             (proj1 (wsgize_result_by_iter demo_rt ∅ st0 _
                       (PyList [PyStr "a"; PyStr "b"; PyStr "c"]) eq_refl)
                (default_wsgize (PyFunc 1%nat)) eq_refl eq_refl)).
  - exact (f_equal snd
             (proj2 (wsgize_result_by_iter demo_rt ∅ st0 _ (PyInt 5) eq_refl)
                (default_wsgize_01 (PyFunc 2%nat)) eq_refl eq_refl)).
Defined.

(** * More on the adapter: the call it makes and how it ends *)

Lemma dispatch_01_03 rt (w : V01.Wsgize.t) args kw st :
  V01.WsgiWrap.dispatch rt w args kw st
    = V03.WsgiWrap.dispatch rt (upgrade w) args kw st.
Proof. reflexivity. Qed.

Lemma apply_extends rt f args kw st st' (o : outcome value) :
  V03.WsgiWrap.apply rt f args kw st = (st', o) ->
  exists evs, extends st st' evs /\ wrapper_calls evs = [].
Proof.
  unfold V03.WsgiWrap.apply, call_plain; run.
  destruct (from_option star_args (Return []) args) as [a|e];
    [| intros [= <- _]; exists []; split;
       [unfold extends; by rewrite emit_nil | done]].
  destruct (from_option star_kwargs (Return []) kw) as [k|e];
    [| intros [= <- _]; exists []; split;
       [unfold extends; by rewrite emit_nil | done]].
  destruct f; intros [= <- _];
    try (exists []; split; [unfold extends; by rewrite emit_nil | done]).
  all: eexists; split; [reflexivity | done].
Qed.

(** The [if]/[elif] chain issues no [start_response]. *)
Lemma dispatch_extends rt (self : V03.Wsgize.t) args kw st st' o :
  V03.WsgiWrap.dispatch rt self args kw st = (st', o) ->
  exists evs, extends st st' evs /\ wrapper_calls evs = [].
Proof.
  unfold V03.WsgiWrap.dispatch.
  assert (forall a k,
             (d <- V03.WsgiWrap.apply rt (V03.Wsgize.application self) a k ;;
              ret (Some d)) st = (st', o) ->
             exists evs, extends st st' evs /\ wrapper_calls evs = []) as Hap.
  { intros a k. run.
    destruct (V03.WsgiWrap.apply rt (V03.Wsgize.application self) a k st)
      as [s [d|e]] eqn:E; intros [= <- _]; exact (apply_extends _ _ _ _ _ _ _ E). }
  destruct (truthy args), (truthy kw); simpl; try apply Hap.
  run. intros [= <- _]. exists []. split; [unfold extends; by rewrite emit_nil | done].
Qed.

(** X6: which call [WsgiWrap.__call__] makes, by the truth values of
    [args] and [kw] (both versions): both truthy, the callable gets the
    items of [args] as positional and the items of [kw] as keyword
    arguments; only [args] truthy, the positional ones alone; only [kw]
    truthy, the keyword ones alone; neither, no call at all and [data]
    stays unbound.  A truthy [args] that cannot be iterated, or a truthy
    [kw] that is not a dictionary, ends in the interpreter's [TypeError]
    before the callable is invoked. *)
Theorem wsgiwrap_dispatch_cases rt (self : V03.Wsgize.t) (f : fid)
    (args kw : value) st :
  V03.Wsgize.application self = PyFunc f ->
  (forall a k,
      truthy args = true -> truthy kw = true ->
      star_args args = Return a -> star_kwargs kw = Return k ->
      V03.WsgiWrap.dispatch rt self args kw st
        = (emit [EvCallPlain f a k] st, bound (plain_app rt f (trace st) a k))) /\
  (forall a,
      truthy args = true -> truthy kw = false ->
      star_args args = Return a ->
      V03.WsgiWrap.dispatch rt self args kw st
        = (emit [EvCallPlain f a []] st, bound (plain_app rt f (trace st) a []))) /\
  (forall k,
      truthy args = false -> truthy kw = true ->
      star_kwargs kw = Return k ->
      V03.WsgiWrap.dispatch rt self args kw st
        = (emit [EvCallPlain f [] k] st, bound (plain_app rt f (trace st) [] k))) /\
  (truthy args = false -> truthy kw = false ->
   V03.WsgiWrap.dispatch rt self args kw st = (st, Return None)) /\
  (forall e,
      truthy args = true -> star_args args = Raise e ->
      V03.WsgiWrap.dispatch rt self args kw st = (st, Raise e)) /\
  (forall e,
      truthy args = false -> truthy kw = true -> star_kwargs kw = Raise e ->
      V03.WsgiWrap.dispatch rt self args kw st = (st, Raise e)) /\
  (forall a e,
      truthy args = true -> truthy kw = true ->
      star_args args = Return a -> star_kwargs kw = Raise e ->
      V03.WsgiWrap.dispatch rt self args kw st = (st, Raise e)) /\
  (forall w1 : V01.Wsgize.t,
      upgrade w1 = self ->
      V01.WsgiWrap.dispatch rt w1 args kw st
        = V03.WsgiWrap.dispatch rt self args kw st).
Proof.
  intros Hf.
  refine (conj _ (conj _ (conj _ (conj _ (conj _ (conj _ (conj _ _)))))));
    [.. | intros w1 <-; apply dispatch_01_03];
    unfold V03.WsgiWrap.dispatch, V03.WsgiWrap.apply, call_plain, bound;
    rewrite Hf.
  - intros a k -> -> Ha Hk. run; simpl. rewrite Ha, Hk.
    by destruct (plain_app rt f (trace st) a k).
  - intros a -> -> Ha. run; simpl. rewrite Ha.
    by destruct (plain_app rt f (trace st) a []).
  - intros k -> -> Hk. run; simpl. rewrite Hk.
    by destruct (plain_app rt f (trace st) [] k).
  - by intros -> ->.
  - intros e -> He. destruct (truthy kw); run; simpl; by rewrite He.
  - intros e -> -> He. run; simpl. by rewrite He.
  - intros a e -> -> Ha He. run; simpl. by rewrite Ha, He.
Qed.

Lemma wsgiwrap_dispatch_cases_witness :
  V03.WsgiWrap.dispatch demo_rt (default_wsgize (PyFunc 1%nat))
    (PyTuple [PyInt 1; PyInt 2]) (PyDict []) st0
    = (State ∅ [] [EvCallPlain 1%nat [PyInt 1; PyInt 2] []],
       Return (Some (PyTuple [PyInt 1; PyInt 2]))) /\
  V03.WsgiWrap.dispatch demo_rt (default_wsgize (PyFunc 1%nat))
    (PyTuple []) (PyDict [("x", PyInt 3)]) st0
    = (State ∅ [] [EvCallPlain 1%nat [] [("x", PyInt 3)]],
       Return (Some (PyTuple []))) /\
  V03.WsgiWrap.dispatch demo_rt (default_wsgize (PyFunc 1%nat))
    (PyTuple [PyInt 1]) (PyInt 5) st0
    = (st0, Raise (Exn TypeError "argument after ** must be a mapping, not int")) /\
  V03.WsgiWrap.dispatch demo_rt (default_wsgize (PyFunc 1%nat))
    (PyInt 5) (PyDict []) st0
    = (st0, Raise (Exn TypeError "argument after * must be a sequence, not int")).
Proof.
  pose proof (fun args kw =>
                wsgiwrap_dispatch_cases demo_rt (default_wsgize (PyFunc 1%nat))
                  1%nat args kw st0 eq_refl) as H.
  split; [| split; [| split]].
  - exact (proj1 (proj2 (H (PyTuple [PyInt 1; PyInt 2]) (PyDict [])))
             _ eq_refl eq_refl eq_refl).
  - exact (proj1 (proj2 (proj2 (H (PyTuple []) (PyDict [("x", PyInt 3)]))))
             _ eq_refl eq_refl eq_refl).
  - exact (proj1 (proj2 (proj2 (proj2 (proj2 (proj2 (proj2
             (H (PyTuple [PyInt 1]) (PyInt 5))))))))
             _ _ eq_refl eq_refl eq_refl eq_refl).
  - exact (proj1 (proj2 (proj2 (proj2 (proj2 (H (PyInt 5) (PyDict []))))))
             _ eq_refl eq_refl).
Defined.

(** X7: [WsgiWrap.__call__] has no handler around the call of the
    wrapped callable: an exception raised by the callable (or by laying
    out its arguments) ends the request as it is, in the state the
    callable left, and the adapter has not called [start_response];
    an exception of the unpacking of the routing arguments other than
    [ValueError] does the same before anything is invoked. *)
Theorem wsgiwrap_error_propagates rt environ st st1 e :
  (forall (self : V03.Wsgize.t) p,
      V03.WsgiWrap.routing_args self environ = Return p ->
      V03.WsgiWrap.dispatch rt self p.1 p.2 st = (st1, Raise e) ->
      V03.WsgiWrap.__call__ rt self environ st = (st1, Raise e) /\
      exists evs, extends st st1 evs /\ wrapper_calls evs = []) /\
  (forall self : V03.Wsgize.t,
      V03.WsgiWrap.routing_args self environ = Raise e ->
      V03.WsgiWrap.__call__ rt self environ st = (st, Raise e)) /\
  (forall self : V01.Wsgize.t,
      V01.WsgiWrap.dispatch rt self
        (default (PyBool false) (environ !! V01.Wsgize.argkey self))
        (default (PyBool false) (environ !! V01.Wsgize.kwargkey self)) st
        = (st1, Raise e) ->
      V01.WsgiWrap.__call__ rt self environ st = (st1, Raise e) /\
      exists evs, extends st st1 evs /\ wrapper_calls evs = []).
Proof.
  split; [| split].
  - intros self p Hp Hd. split.
    + unfold V03.WsgiWrap.__call__; run. by rewrite Hp, Hd.
    + exact (dispatch_extends _ _ _ _ _ _ _ Hd).
  - intros self Hp. unfold V03.WsgiWrap.__call__; run. by rewrite Hp.
  - intros self Hd. split.
    + unfold V01.WsgiWrap.__call__; run. by rewrite Hd.
    + rewrite dispatch_01_03 in Hd. exact (dispatch_extends _ _ _ _ _ _ _ Hd).
Qed.

Lemma wsgiwrap_error_propagates_witness :
  V03.WsgiWrap.__call__ demo_rt (default_wsgize (PyInt 3)) one_arg_env st0
    = (st0, Raise (Exn TypeError "'int' object is not callable")) /\
  V03.WsgiWrap.__call__ demo_rt (default_wsgize (PyFunc 1%nat)) number_env st0
    = (st0, Raise (Exn TypeError "'int' object is not iterable")).
Proof.
  split.
  - exact (proj1 (proj1 (wsgiwrap_error_propagates demo_rt one_arg_env st0 st0 _)
                    (default_wsgize (PyInt 3)) (PyTuple [PyInt 1], PyDict [])
                    eq_refl eq_refl)).
  - exact (proj1 (proj2 (wsgiwrap_error_propagates demo_rt number_env st0 st0 _))
             (default_wsgize (PyFunc 1%nat)) eq_refl).
Defined.

(** X8: in [WsgiWrap.__call__] the text test stands alone, so a text
    result of the wrapped callable is returned as the one-element list
    holding it, after the one autogenerated [start_response] (both
    versions); this is the wrapping that [Wsgize.__call__] never
    reaches. *)
Theorem wsgiwrap_text_wrapped rt environ st st1 (s : string) :
  (forall (self : V03.Wsgize.t) p,
      V03.WsgiWrap.routing_args self environ = Return p ->
      V03.WsgiWrap.dispatch rt self p.1 p.2 st = (st1, Return (Some (PyStr s))) ->
      server rt (trace st1) (V03.Wsgize.autogenerated self) = None ->
      V03.WsgiWrap.__call__ rt self environ st =
        (emit [EvStartResponse FromWrapper (V03.Wsgize.autogenerated self)] st1,
         Return (PyList [PyStr s]))) /\
  (forall self : V01.Wsgize.t,
      V01.WsgiWrap.dispatch rt self
        (default (PyBool false) (environ !! V01.Wsgize.argkey self))
        (default (PyBool false) (environ !! V01.Wsgize.kwargkey self)) st
        = (st1, Return (Some (PyStr s))) ->
      server rt (trace st1) (V01.Wsgize.autogenerated self) = None ->
      V01.WsgiWrap.__call__ rt self environ st =
        (emit [EvStartResponse FromWrapper (V01.Wsgize.autogenerated self)] st1,
         Return (PyList [PyStr s]))).
Proof.
  split.
  - intros self p Hp Hd Hsrv.
    rewrite (wsgiwrap_call_dispatched rt self environ st st1 p _ Hp Hd).
    unfold wrapped. by rewrite Hsrv.
  - intros self Hd Hsrv.
    rewrite (wsgiwrap_01_call_dispatched rt self environ st st1 _ Hd).
    unfold wrapped. by rewrite Hsrv.
Qed.

Lemma wsgiwrap_text_wrapped_witness :
  V03.WsgiWrap.__call__ strict_rt (default_wsgize (PyFunc 0%nat)) one_arg_env st0
    = (State ∅ []
         [EvCallPlain 0%nat [PyInt 1] [];
          EvStartResponse FromWrapper
            (SrCall "200 OK" [("Content-type", "text/html")] PyNone)],
       Return (PyList [PyStr "hello"])).
Proof.
  exact (proj1 (wsgiwrap_text_wrapped strict_rt one_arg_env st0 _ "hello")
           (default_wsgize (PyFunc 0%nat)) (PyTuple [PyInt 1], PyDict [])
           eq_refl eq_refl eq_refl).
Defined.

(** X9: version 0.1 end to end on its main path: with a truthy
    iterable under the positional key and nothing truthy under the
    keyword key, [WsgiWrap.__call__] invokes the wrapped callable with
    exactly those positional arguments and no keyword, then calls
    [start_response] once, and returns the result, wrapped in a list
    when it is text. *)
Theorem wsgiwrap_01_positional_call rt (self : V01.Wsgize.t) (f : fid)
    (environ : env) st (args : value) (a : list value) (d : value) :
  V01.Wsgize.application self = PyFunc f ->
  environ !! V01.Wsgize.argkey self = Some args ->
  truthy args = true ->
  star_args args = Return a ->
  truthy (default (PyBool false) (environ !! V01.Wsgize.kwargkey self)) = false ->
  plain_app rt f (trace st) a [] = Return d ->
  server rt (trace st ++ [EvCallPlain f a []]) (V01.Wsgize.autogenerated self)
    = None ->
  V01.WsgiWrap.__call__ rt self environ st =
    (emit [EvCallPlain f a [];
           EvStartResponse FromWrapper (V01.Wsgize.autogenerated self)] st,
     Return (if is_basestring d then PyList [d] else d)).
Proof.
  intros Hf Hargs Ht Ha Hk Hd Hsrv.
  rewrite (wsgiwrap_01_call_dispatched rt self environ st
             (emit [EvCallPlain f a []] st) (Some d)).
  - simpl. rewrite Hsrv. simpl. by rewrite emit_emit.
  - rewrite Hargs. simpl.
    unfold V01.WsgiWrap.dispatch, V01.WsgiWrap.apply, call_plain.
    rewrite Ht, Hk, Hf. run; simpl. by rewrite Ha, Hd.
Qed.

Lemma wsgiwrap_01_positional_call_witness :
  V01.WsgiWrap.__call__ demo_rt (default_wsgize_01 (PyFunc 1%nat)) args_env st0
    = (State ∅ []
         [EvCallPlain 1%nat [PyInt 1; PyInt 2] [];
          EvStartResponse FromWrapper
            (SrCall "200 OK" [("Content-type", "text/html")] PyNone)],
       Return (PyTuple [PyInt 1; PyInt 2])).
Proof.
  exact (wsgiwrap_01_positional_call demo_rt (default_wsgize_01 (PyFunc 1%nat))
           1%nat args_env st0 (PyTuple [PyInt 1; PyInt 2]) _ _
           eq_refl eq_refl eq_refl eq_refl eq_refl eq_refl eq_refl).
Defined.

Lemma iter_items_type_error v e :
  iter_items v = Raise e -> exn_class_of e = TypeError.
Proof. destruct v; simpl; intros [= <-]; reflexivity. Qed.

(** X10: what the [try] block of version 0.3 makes of the value found
    under the routing key: any iterable of exactly two items is taken
    as the pair (a two-element list, a dictionary with two keys, a
    string of two characters), with no look at the separate keys; an
    iterable of any other length raises [ValueError], which is caught,
    and the separate keys are read with their empty defaults; a value
    that cannot be iterated raises [TypeError], which is not caught. *)
Theorem routing_args_cases (self : V03.Wsgize.t) (environ : env) (v : value) :
  environ !! V03.Wsgize.key self = Some v ->
  (forall a b,
      iter_items v = Return [a; b] ->
      V03.WsgiWrap.routing_args self environ = Return (a, b)) /\
  (forall xs,
      iter_items v = Return xs -> length xs <> 2%nat ->
      V03.WsgiWrap.routing_args self environ =
        Return (default (PyTuple []) (environ !! V03.Wsgize.argkey self),
                default (PyDict []) (environ !! V03.Wsgize.kwargkey self))) /\
  (forall e,
      iter_items v = Raise e ->
      V03.WsgiWrap.routing_args self environ = Raise e /\
      exn_class_of e = TypeError).
Proof.
  intros Hv. unfold V03.WsgiWrap.routing_args, unpack_pair. rewrite Hv. simpl.
  split; [| split].
  - intros a b ->. reflexivity.
  - intros xs -> Hlen.
    destruct xs as [|x [|y [|z xs]]]; simpl in *; try reflexivity.
    by destruct Hlen.
  - intros e He. pose proof (iter_items_type_error v e He) as Hc.
    rewrite He. by rewrite Hc.
Qed.

Lemma routing_args_cases_witness :
  V03.WsgiWrap.routing_args (default_wsgize (PyFunc 1%nat)) string_pair_env
    = Return (PyStr "a", PyStr "b") /\
  V03.WsgiWrap.routing_args (default_wsgize (PyFunc 1%nat)) fallback_env
    = Return (PyTuple [PyInt 7], PyDict []) /\
  V03.WsgiWrap.routing_args (default_wsgize (PyFunc 1%nat)) number_env
    = Raise (Exn TypeError "'int' object is not iterable").
Proof.
  split; [| split].
  - exact (proj1 (routing_args_cases (default_wsgize (PyFunc 1%nat))
                    string_pair_env (PyStr "ab") eq_refl) _ _ eq_refl).
  - refine (proj1 (proj2 (routing_args_cases (default_wsgize (PyFunc 1%nat))
                    fallback_env (PyTuple []) eq_refl)) [] eq_refl _).
    discriminate.
  - exact (proj1 (proj2 (proj2 (routing_args_cases (default_wsgize (PyFunc 1%nat))
                    number_env (PyInt 5) eq_refl)) _ eq_refl)).
Defined.

(** X11: version 0.3 end to end on its main path: with a two-item
    iterable under the routing key whose items are both truthy, a
    sequence and a dictionary, [WsgiWrap.__call__] invokes the wrapped
    callable with the items of the first as positional and the items of
    the second as keyword arguments, whatever the separate keys hold,
    then calls [start_response] once, and returns the result, wrapped in
    a list when it is text. *)
Theorem wsgiwrap_03_combined_call rt (self : V03.Wsgize.t) (f : fid)
    (environ : env) st (v args kw : value) (a : list value)
    (k : list (string * value)) (d : value) :
  V03.Wsgize.application self = PyFunc f ->
  environ !! V03.Wsgize.key self = Some v ->
  iter_items v = Return [args; kw] ->
  truthy args = true -> truthy kw = true ->
  star_args args = Return a -> star_kwargs kw = Return k ->
  plain_app rt f (trace st) a k = Return d ->
  server rt (trace st ++ [EvCallPlain f a k]) (V03.Wsgize.autogenerated self)
    = None ->
  V03.WsgiWrap.__call__ rt self environ st =
    (emit [EvCallPlain f a k;
           EvStartResponse FromWrapper (V03.Wsgize.autogenerated self)] st,
     Return (if is_basestring d then PyList [d] else d)).
Proof.
  intros Hf Hv Hit Hta Htk Ha Hk Hd Hsrv.
  rewrite (wsgiwrap_call_dispatched rt self environ st
             (emit [EvCallPlain f a k] st) (args, kw) (Some d)).
  - simpl. rewrite Hsrv. simpl. by rewrite emit_emit.
  - unfold V03.WsgiWrap.routing_args, unpack_pair. by rewrite Hv; simpl; rewrite Hit.
  - simpl. unfold V03.WsgiWrap.dispatch, V03.WsgiWrap.apply, call_plain.
    rewrite Hta, Htk, Hf. run; simpl. by rewrite Ha, Hk, Hd.
Qed.

Lemma wsgiwrap_03_combined_call_witness :
  V03.WsgiWrap.__call__ demo_rt (default_wsgize (PyFunc 1%nat)) both_env st0 =
    (State ∅ []
       [EvCallPlain 1%nat [PyInt 1; PyInt 2] [("x", PyInt 3)];
        EvStartResponse FromWrapper
          (SrCall "200 OK" [("Content-type", "text/html")] PyNone)],
     Return (PyTuple [PyInt 1; PyInt 2])).
Proof.
  exact (wsgiwrap_03_combined_call demo_rt (default_wsgize (PyFunc 1%nat)) 1%nat
           both_env st0 _ _ _ _ _ _
           eq_refl eq_refl eq_refl eq_refl eq_refl eq_refl eq_refl eq_refl eq_refl).
Defined.

Lemma wsgiwrap_01_no_arguments_witness :
  V01.WsgiWrap.__call__ demo_rt (default_wsgize_01 (PyFunc 1%nat)) ∅ st0 =
    (State ∅ []
       [EvStartResponse FromWrapper
          (SrCall "200 OK" [("Content-type", "text/html")] PyNone)],
     Raise data_unbound).
Proof.
  exact (wsgiwrap_01_no_arguments demo_rt (default_wsgize_01 (PyFunc 1%nat))
           ∅ st0 eq_refl eq_refl eq_refl).
Defined.

Lemma wsgiwrap_03_no_arguments_witness :
  V03.WsgiWrap.__call__ demo_rt (default_wsgize (PyFunc 1%nat)) empty_pair_env st0 =
    (State ∅ []
       [EvStartResponse FromWrapper
          (SrCall "200 OK" [("Content-type", "text/html")] PyNone)],
     Raise data_unbound).
Proof.
  exact (wsgiwrap_03_no_arguments demo_rt (default_wsgize (PyFunc 1%nat))
           empty_pair_env st0 (PyTuple [], PyDict [])
           eq_refl eq_refl eq_refl eq_refl).
Defined.

(** * More on the dispatcher: names, imports, construction *)

Lemma append_cons (a : Ascii.ascii) (s t : string) :
  String a s +:+ t = String a (s +:+ t).
Proof. reflexivity. Qed.

Lemma substring_all (s : string) : String.substring 0 (String.length s) s = s.
Proof. induction s as [|a s IH]; simpl; [done | by rewrite IH]. Qed.

Lemma rindex_split (c : Ascii.ascii) (s : string) (i : nat) :
  rindex c s = Some i ->
  slice_to i s +:+ String c (slice_from (i + 1) s) = s /\
  rindex c (slice_from (i + 1) s) = None.
Proof.
  revert i. induction s as [|a s IH]; intros i; simpl; [done |].
  destruct (rindex c s) as [j|] eqn:E.
  - intros [= <-]. destruct (IH j eq_refl) as [H1 H2].
    unfold slice_to, slice_from in *. simpl. split; [| exact H2].
    rewrite append_cons. f_equal. exact H1.
  - destruct (Ascii.eqb a c) eqn:Ea; [| done].
    intros [= <-]. apply Ascii.eqb_eq in Ea as ->.
    unfold slice_to, slice_from. simpl.
    rewrite Nat.sub_0_r, substring_all. by rewrite E.
Qed.

Lemma rindex_app (c : Ascii.ascii) (a b : string) :
  rindex c b = None ->
  rindex c (a +:+ String c b) = Some (String.length a).
Proof.
  intros Hb. induction a as [|x a IH]; simpl.
  - by rewrite Hb, Ascii.eqb_refl.
  - by rewrite IH.
Qed.

Lemma slice_to_app (a b : string) : slice_to (String.length a) (a +:+ b) = a.
Proof.
  unfold slice_to. induction a as [|x a IH].
  - by destruct b.
  - rewrite append_cons. simpl. f_equal. exact IH.
Qed.

Lemma slice_from_app (a : string) (c : Ascii.ascii) (b : string) :
  slice_from (String.length a + 1) (a +:+ String c b) = b.
Proof.
  unfold slice_from. induction a as [|x a IH].
  - simpl. rewrite Nat.sub_0_r. apply substring_all.
  - rewrite append_cons. simpl. exact IH.
Qed.

Lemma rindex_app_some (c : Ascii.ascii) (a b : string) :
  is_Some (rindex c (a +:+ String c b)).
Proof.
  induction a as [|x a IH]; simpl.
  - destruct (rindex c b); [by eexists |]. rewrite Ascii.eqb_refl. by eexists.
  - destruct IH as [i Hi]. rewrite Hi. by eexists.
Qed.

(** X14: [getmodfunc] cuts the dotted name (the entry, prefixed by the
    module path and a dot when a module path is configured) at its last
    dot: joining the two parts with a dot gives the name back and the
    attribute part holds no dot.  It fails, with the [ValueError] of
    [rindex], only when no module path is configured and the entry
    holds no dot.  Version 0.1's [get_mod_func] does the same. *)
Theorem getmodfunc_split (self : V03.WsgiRoute.t) (self1 : V01.WsgiRoute.t)
    (s : string) :
  match V03.WsgiRoute.getmodfunc self (PyStr s) with
  | Return (m, f) =>
      m +:+ "." +:+ f = dotted (V03.WsgiRoute.modpath self) s /\
      rindex "." f = None
  | Raise e =>
      e = Exn ValueError "substring not found" /\
      V03.WsgiRoute.modpath self = "" /\ rindex "." s = None
  end /\
  (V01.WsgiRoute.modpath self1 = V03.WsgiRoute.modpath self ->
   V01.WsgiRoute.get_mod_func self1 (PyStr s)
     = V03.WsgiRoute.getmodfunc self (PyStr s)).
Proof.
  split; [| apply get_mod_func_same].
  unfold V03.WsgiRoute.getmodfunc, dotted.
  destruct (String.eqb_spec (V03.WsgiRoute.modpath self) "") as [Hm | Hm]; simpl.
  - destruct (rindex "." s) as [dot|] eqn:E; [| done].
    apply rindex_split in E as [H1 H2]. split; [exact H1 | exact H2].
  - change (V03.WsgiRoute.modpath self +:+ "." +:+ s)
      with (V03.WsgiRoute.modpath self +:+ String "." s).
    destruct (rindex_app_some "." (V03.WsgiRoute.modpath self) s) as [dot E].
    rewrite E. apply rindex_split in E as [H1 H2]. split; [exact H1 | exact H2].
Qed.

(** X15: with a module path configured, an entry that holds no dot is
    taken as an attribute of that module: [getmodfunc] answers the pair
    (module path, entry). *)
Theorem getmodfunc_short_name (self : V03.WsgiRoute.t) (s : string) :
  V03.WsgiRoute.modpath self <> "" ->
  rindex "." s = None ->
  V03.WsgiRoute.getmodfunc self (PyStr s)
    = Return (V03.WsgiRoute.modpath self, s).
Proof.
  intros Hm Hs. unfold V03.WsgiRoute.getmodfunc.
  destruct (String.eqb_spec (V03.WsgiRoute.modpath self) "") as [E | _];
    [done |]. simpl.
  change (V03.WsgiRoute.modpath self +:+ "." +:+ s)
    with (V03.WsgiRoute.modpath self +:+ String "." s).
  rewrite (rindex_app _ _ _ Hs).
  by rewrite slice_to_app, slice_from_app.
Qed.

Lemma getmodfunc_short_name_witness :
  V03.WsgiRoute.getmodfunc (V03.WsgiRoute.Make 1%nat "mypkg.handlers" "k")
    (PyStr "greet") = Return ("mypkg.handlers", "greet").
Proof.
  apply (getmodfunc_short_name (V03.WsgiRoute.Make 1%nat "mypkg.handlers" "k")
           "greet"); [discriminate | reflexivity].
Defined.

(** X16: what [getcallback] makes of the import, once the name is split
    into [mod_name] and [func_name]: the attribute when the module loads
    and has it; [ImportError] "Could not import <mod_name>. Error was:
    <detail>" when the import raises [ImportError]; [AttributeError]
    "Tried <func_name> in module <mod_name>. Error was: <detail>" when
    the module lacks the attribute, and also when the import itself
    raises [AttributeError]; any other exception of the import as it
    is.  The state is never changed. *)
Theorem getcallback_outcomes rt (self : V03.WsgiRoute.t) (callback : value)
    (mod_name func_name : string) st :
  V03.WsgiRoute.getmodfunc self callback = Return (mod_name, func_name) ->
  (forall (m : gmap string value) v,
      importer rt (sys_path st) mod_name = Return m ->
      m !! func_name = Some v ->
      V03.WsgiRoute.getcallback rt self callback st = (st, Return v)) /\
  (forall m : gmap string value,
      importer rt (sys_path st) mod_name = Return m ->
      m !! func_name = None ->
      V03.WsgiRoute.getcallback rt self callback st =
        (st, Raise (Exn AttributeError
                      ("Tried " +:+ func_name +:+ " in module " +:+ mod_name
                         +:+ ". Error was: 'module' object has no attribute '"
                         +:+ func_name +:+ "'")))) /\
  (forall e,
      importer rt (sys_path st) mod_name = Raise e ->
      V03.WsgiRoute.getcallback rt self callback st =
        (st, Raise
               match exn_class_of e with
               | ImportError =>
                   Exn ImportError ("Could not import " +:+ mod_name
                                      +:+ ". Error was: " +:+ exn_msg e)
               | AttributeError =>
                   Exn AttributeError ("Tried " +:+ func_name +:+ " in module "
                                         +:+ mod_name +:+ ". Error was: "
                                         +:+ exn_msg e)
               | _ => e
               end)).
Proof.
  intros Hsplit.
  unfold V03.WsgiRoute.getcallback, V03.WsgiRoute.import_attr; run.
  rewrite Hsplit; simpl.
  split; [| split].
  - intros m v Hm Hv. by rewrite Hm, Hv.
  - intros m Hm Hv. rewrite Hm, Hv. simpl. reflexivity.
  - intros e He. rewrite He. by destruct (exn_class_of e).
Qed.

Lemma getcallback_outcomes_witness :
  V03.WsgiRoute.getcallback demo_rt greet_route (PyStr "mypkg.handlers.greet")
    greet_state = (greet_state, Return (PyFunc 1%nat)) /\
  V03.WsgiRoute.getcallback demo_rt greet_route (PyStr "mypkg.handlers.bye")
    greet_state =
    (greet_state,
     Raise (Exn AttributeError
              "Tried bye in module mypkg.handlers. Error was: 'module' object has no attribute 'bye'")) /\
  V03.WsgiRoute.getcallback demo_rt greet_route (PyStr "nowhere.greet")
    greet_state =
    (greet_state,
     Raise (Exn ImportError
              "Could not import nowhere. Error was: No module named nowhere")).
Proof.
  split; [| split].
  - exact (proj1 (getcallback_outcomes demo_rt greet_route
                    (PyStr "mypkg.handlers.greet") "mypkg.handlers" "greet"
                    greet_state eq_refl) _ _ eq_refl eq_refl).
  - exact (proj1 (proj2 (getcallback_outcomes demo_rt greet_route
                    (PyStr "mypkg.handlers.bye") "mypkg.handlers" "bye"
                    greet_state eq_refl)) _ eq_refl eq_refl).
  - exact (proj2 (proj2 (getcallback_outcomes demo_rt greet_route
                    (PyStr "nowhere.greet") "nowhere" "greet"
                    greet_state eq_refl)) _ eq_refl).
Defined.

(** X17: entries that the dispatcher cannot use.  In version 0.3 a
    table entry that is not a string and has no [__call__] attribute
    fails inside [lookup], in [getmodfunc]: [AttributeError] (no
    [rindex]) without a module path, [TypeError] (the join) with one;
    an old-style class is such an entry although it can be called.  In
    version 0.1 [lookup] hands back every entry that is not a string and
    the dispatcher calls it: an old-style class is invoked, an entry
    that cannot be called ends in [TypeError] with nothing invoked.  In
    version 0.3 a resolved value that cannot be called ends the same
    way. *)
Theorem wsgiroute_uncallable_entries rt (environ : env) st (k : string)
    (v : value) :
  (forall self : V03.WsgiRoute.t,
      hasattr_call v = false ->
      is_basestring v = false ->
      deref st (V03.WsgiRoute.table self) !! k = Some v ->
      exists msg,
        V03.WsgiRoute.lookup rt self (PyStr k) st =
          (st, Raise (Exn (if String.eqb (V03.WsgiRoute.modpath self) ""
                           then AttributeError else TypeError) msg))) /\
  (forall self : V01.WsgiRoute.t,
      is_basestring v = false ->
      deref st (V01.WsgiRoute.table self) !! k = Some v ->
      environ !! V01.WsgiRoute.kwargkey self = Some (PyStr k) ->
      V01.WsgiRoute.lookup rt self (PyStr k) st = (st, Return v) /\
      (callable v = false ->
       V01.WsgiRoute.__call__ rt self environ st = (st, Raise (not_callable v))) /\
      (forall c : fid,
          v = PyClassic c ->
          V01.WsgiRoute.__call__ rt self environ st =
            (emit (EvCallWsgi c environ
                     :: (EvStartResponse FromApplication
                           <$> (wsgi_app rt c (trace st) environ).1)) st,
             (wsgi_app rt c (trace st) environ).2))) /\
  (forall (self : V03.WsgiRoute.t) kw,
      callable v = false ->
      environ !! V03.WsgiRoute.key self = Some kw ->
      V03.WsgiRoute.lookup rt self kw st = (st, Return v) ->
      V03.WsgiRoute.__call__ rt self environ st = (st, Raise (not_callable v))).
Proof.
  split; [| split].
  - intros self Hcall Htext Hk.
    unfold V03.WsgiRoute.lookup, getitem; run. rewrite Hk, Hcall.
    unfold V03.WsgiRoute.getcallback, V03.WsgiRoute.getmodfunc; run.
    destruct (String.eqb (V03.WsgiRoute.modpath self) ""); simpl;
      destruct v; try discriminate; by eexists.
  - intros self Htext Hk Hkey.
    assert (V01.WsgiRoute.lookup rt self (PyStr k) st = (st, Return v)) as Hl.
    { unfold V01.WsgiRoute.lookup, getitem; run. by rewrite Hk, Htext. }
    assert (V01.WsgiRoute.__call__ rt self environ st = call_wsgi rt v environ st)
      as Hc.
    { unfold V01.WsgiRoute.__call__, getitem; run. rewrite Hkey.
      fold (lift (A := value)). by rewrite Hl. }
    split; [exact Hl |]. split.
    + intros Hcall. rewrite Hc. unfold call_wsgi. by destruct v.
    + intros c ->. by rewrite Hc.
  - intros self kw Hcall Hkey Hl.
    unfold V03.WsgiRoute.__call__, getitem; run. rewrite Hkey, Hl.
    unfold call_wsgi. by destruct v.
Qed.

Lemma wsgiroute_uncallable_entries_witness :
  (exists msg,
     V03.WsgiRoute.lookup conf_rt greet_route (PyStr "five") odd_state
       = (odd_state, Raise (Exn AttributeError msg))) /\
  V01.WsgiRoute.__call__ conf_rt greet_route_01 five_env odd_state
    = (odd_state, Raise (Exn TypeError "'int' object is not callable")) /\
  V03.WsgiRoute.__call__ conf_rt greet_route lazy_env odd_state
    = (odd_state, Raise (Exn TypeError "'int' object is not callable")) /\
  (exists msg,
     V03.WsgiRoute.lookup demo_rt greet_route (PyStr "app") classic_state
       = (classic_state, Raise (Exn AttributeError msg))) /\
  V01.WsgiRoute.__call__ demo_rt greet_route_01 app_env classic_state
    = (State (<[ 1%nat := classic_table ]> ∅) [] [EvCallWsgi 1%nat app_env],
       Return (PyList [PyStr "a"; PyStr "b"; PyStr "c"])).
Proof.
  split; [| split; [| split; [| split]]].
  - exact (proj1 (wsgiroute_uncallable_entries conf_rt five_env odd_state "five"
                    (PyInt 5)) greet_route eq_refl eq_refl eq_refl).
  - exact (proj1 (proj2 (proj1 (proj2 (wsgiroute_uncallable_entries conf_rt
                    five_env odd_state "five" (PyInt 5)))
                    greet_route_01 eq_refl eq_refl eq_refl)) eq_refl).
  - exact (proj2 (proj2 (wsgiroute_uncallable_entries conf_rt lazy_env
                    odd_state "lazy" (PyInt 10)))
             greet_route (PyStr "lazy") eq_refl eq_refl eq_refl).
  - exact (proj1 (wsgiroute_uncallable_entries demo_rt app_env classic_state
                    "app" (PyClassic 1%nat)) greet_route eq_refl eq_refl eq_refl).
  - exact (proj2 (proj2 (proj1 (proj2 (wsgiroute_uncallable_entries demo_rt
                    app_env classic_state "app" (PyClassic 1%nat)))
                    greet_route_01 eq_refl eq_refl eq_refl)) 1%nat eq_refl).
Defined.

Lemma foldl_append (p : list string) (syspaths : list string) :
  foldl (fun (p : list string) path => p ++ [path]) p syspaths = p ++ syspaths.
Proof.
  revert p. induction syspaths as [|x xs IH]; intros p; simpl.
  - by rewrite app_nil_r.
  - rewrite IH. by rewrite <- app_assoc.
Qed.

(** X19: what constructing a dispatcher does.  It appends the
    [syspaths], in their order, to the end of [sys.path], with no test
    for entries already there, and changes nothing else; the table it
    holds is the caller's dictionary, or in version 0.3 the shared
    [routes] when none is given; [modpath] defaults to the empty string
    and the key to [wsgize.callable].  Version 0.1 takes the table as
    its first positional argument, ignores further ones, and raises
    [IndexError] before touching [sys.path] when there is none. *)
Theorem wsgiroute_init_effect (kw : route_kw) st :
  (forall table : option loc,
      V03.WsgiRoute.__init__ table kw st =
        (State (dicts st) (sys_path st ++ default [] (kw_syspaths kw)) (trace st),
         Return (V03.WsgiRoute.Make (default V03.routes table)
                   (default "" (kw_modpath kw))
                   (default "wsgize.callable" (kw_key kw))))) /\
  (forall (table : loc) (rest : list loc),
      V01.WsgiRoute.__init__ (table :: rest) kw st =
        (State (dicts st) (sys_path st ++ default [] (kw_syspaths kw)) (trace st),
         Return (V01.WsgiRoute.Make table
                   (default "" (kw_modpath kw))
                   (default "wsgize.callable" (kw_key kw))))) /\
  (exists msg,
      V01.WsgiRoute.__init__ [] kw st = (st, Raise (Exn IndexError msg))) /\
  (forall table self st',
      V03.WsgiRoute.__init__ table kw st = (st', Return self) ->
      sys_path (exec (V03.WsgiRoute.__init__ table kw) st')
        = (sys_path st ++ default [] (kw_syspaths kw))
            ++ default [] (kw_syspaths kw)).
Proof.
  assert (forall table s,
             V03.WsgiRoute.__init__ table kw s =
               (State (dicts s) (sys_path s ++ default [] (kw_syspaths kw)) (trace s),
                Return (V03.WsgiRoute.Make (default V03.routes table)
                          (default "" (kw_modpath kw))
                          (default "wsgize.callable" (kw_key kw))))) as H3.
  { intros table s. unfold V03.WsgiRoute.__init__.
    destruct (kw_syspaths kw) as [sp|]; simpl.
    - rewrite foldl_append. by destruct table.
    - rewrite app_nil_r. by destruct table. }
  split; [intros table; apply H3 | split; [| split]].
  - intros table rest. unfold V01.WsgiRoute.__init__.
    destruct (kw_syspaths kw) as [sp|]; simpl.
    + by rewrite foldl_append.
    + by rewrite app_nil_r.
  - by eexists.
  - intros table self st' Hinit. rewrite H3 in Hinit.
    injection Hinit as <- _. unfold exec. by rewrite H3.
Qed.

Lemma wsgiroute_init_effect_witness :
  sys_path (exec (V03.WsgiRoute.__init__ None paths_kw)
              (exec (V03.WsgiRoute.__init__ None paths_kw) st0))
    = ["/srv/app"; "/srv/lib"; "/srv/app"; "/srv/lib"].
Proof.
  exact (proj2 (proj2 (proj2 (wsgiroute_init_effect paths_kw st0)))
           None shared_route _ eq_refl).
Defined.

Lemma deref_store_ne l l' t st : l <> l' -> deref (store l t st) l' = deref st l'.
Proof. intros H. unfold deref, store; simpl. by rewrite lookup_insert_ne. Qed.

(** X20: [register] writes one key of one dictionary: after
    [register(name, application)] the shared table gives [application]
    for [name] and what it gave before for every other name; every
    other dictionary, [sys.path] and the events are untouched; and
    registering the same pair again changes nothing more.  [route] has
    the same effect on the store. *)
Theorem register_frame (name : string) (application : value) st :
  (forall other : string,
      deref (exec (V03.register name application) st) V03.routes !! other
        = if decide (name = other) then Some application
          else deref st V03.routes !! other) /\
  (forall l : loc,
      l <> V03.routes ->
      deref (exec (V03.register name application) st) l = deref st l) /\
  sys_path (exec (V03.register name application) st) = sys_path st /\
  trace (exec (V03.register name application) st) = trace st /\
  exec (V03.register name application) (exec (V03.register name application) st)
    = exec (V03.register name application) st /\
  exec (V03.route name application) st = exec (V03.register name application) st.
Proof.
  unfold exec, V03.register, V03.route; run; simpl.
  repeat split.
  - intros other. rewrite deref_store. apply lookup_insert.
  - intros l Hl. by apply deref_store_ne.
  - rewrite deref_store. unfold store; simpl.
    by rewrite !insert_insert_eq.
Qed.

(** X21: a dispatcher built on a table of its own does not see the
    registrations: when its table is not the shared one, [lookup] gives
    after [register(name, application)] the outcome it gave before. *)
Theorem explicit_table_isolated rt (self : V03.WsgiRoute.t) (kw : value)
    (name : string) (application : value) st :
  V03.WsgiRoute.table self <> V03.routes ->
  (V03.WsgiRoute.lookup rt self kw (exec (V03.register name application) st)).2
    = (V03.WsgiRoute.lookup rt self kw st).2.
Proof.
  intros Hne. unfold exec, V03.register; simpl.
  unfold V03.WsgiRoute.lookup; run.
  rewrite deref_store_ne by done.
  destruct (getitem (deref st (V03.WsgiRoute.table self)) kw) as [cb|e]; [| done].
  destruct (hasattr_call cb); [done |].
  unfold V03.WsgiRoute.getcallback, V03.WsgiRoute.import_attr; run.
  destruct (V03.WsgiRoute.getmodfunc self cb) as [p|e]; [| done]. simpl.
  destruct (importer rt (sys_path st) p.1) as [m|e]; simpl.
  - by destruct (m !! p.2).
  - by destruct (exn_class_of e).
Qed.

Lemma explicit_table_isolated_witness :
  (V03.WsgiRoute.lookup demo_rt greet_route (PyStr "greet")
     (exec (V03.register "greet" (PyFunc 2%nat)) greet_state)).2
    = Return (PyFunc 1%nat).
Proof.
  exact (explicit_table_isolated demo_rt greet_route (PyStr "greet") "greet"
           (PyFunc 2%nat) greet_state ltac:(discriminate)).
Defined.


